(** * RefugeeAidFHE: the encrypted-record ledger and its decryption callbacks

    A shallow embedding of [contracts/RefugeeAssistanceFHE.sol] and of the
    record actions of [frontend/web/src/App.tsx], with the properties of the
    system description stated and settled against them.

    Conventions.
    - A [uintN] is a [Z] in range; Solidity 0.8 arithmetic is checked, so an
      operation whose result leaves the range reverts with [Panic 0x11], a
      division by zero with [Panic 0x12], and an explicit narrowing
      conversion [uint32(x)] wraps modulo [2^32].
    - A [mapping(uint256 => T)] is a [gmap Z T] holding the keys that were
      written; reading an unwritten key gives the all-zero value of [T].
    - A [bytes]/[string] value is a [list byte].
    - A contract function is a state transformer that may revert; a
      transaction that reverts leaves the state it started from. *)

From Stdlib Require Import ZArith Lia List.
From Stdlib.Strings Require Import String Byte.
From stdpp Require Import base option gmap list strings pretty.

Local Open Scope Z_scope.

(** ** Reverts and results *)

Inductive Revert : Type :=
| RequireFailed (reason : string)   (* require(cond, reason) *)
| Panic (code : Z)                  (* 0x11 overflow, 0x12 division by zero, 0x41 allocation *)
| AbiDecodeFailed                   (* abi.decode on malformed data *)
| InvalidKMSSignatures.             (* FHE.checkSignatures rejected the proof *)

Inductive Result (A : Type) : Type :=
| Ok (a : A)
| Fail (e : Revert).
Arguments Ok {A} a.
Arguments Fail {A} e.

Definition rbind {A B} (r : Result A) (k : A -> Result B) : Result B :=
  match r with
  | Ok a => k a
  | Fail e => Fail e
  end.

Notation "'try' x := r 'in' k" := (rbind r (fun x => k))
  (at level 10, x name, r at level 100, k at level 200, only parsing).

(** The names the system description gives to the contract's reverts. *)
Definition UnknownRequestId : Revert := RequireFailed "Invalid request".
Definition AlreadyRevealed : Revert := RequireFailed "Already decrypted".
Definition InvalidProof : Revert := InvalidKMSSignatures.

(** ** Machine integers *)

Definition UINT32_MAX : Z := 4294967295.
Definition UINT64_MAX : Z := 18446744073709551615.
Definition UINT256_MAX : Z :=
  115792089237316195423570985008687907853269984665640564039457584007913129639935.

Definition checked_add (max a b : Z) : Result Z :=
  if a + b <=? max then Ok (a + b) else Fail (Panic 17).

Definition checked_mul (max a b : Z) : Result Z :=
  if a * b <=? max then Ok (a * b) else Fail (Panic 17).

Definition checked_div (a b : Z) : Result Z :=
  if b =? 0 then Fail (Panic 18) else Ok (a / b).

(** [uint32(x)]: explicit narrowing conversion. *)
Definition to_uint32 (x : Z) : Z := x mod (UINT32_MAX + 1).

Definition bytes : Type := list byte.

#[global] Instance byte_eq_decision : EqDecision byte := Byte.byte_eq_dec.

(** [b.length] *)
Definition blen (b : bytes) : Z := Z.of_nat (length b).

(** ** Scoring helpers (contract lines 223-249) *)

Definition calculateEligibility (identity needs : bytes) : Result Z :=
  let idBytes := identity in
  let needsBytes := needs in
  let score := 0 in
  try score := (if blen idBytes >? 10 then checked_add UINT32_MAX score 50 else Ok score) in
  try score := (if blen needsBytes >? 5 then checked_add UINT32_MAX score 50 else Ok score) in
  Ok (if score >? 100 then 100 else score).

(** The loop [for (i = 0; i < needsBytes.length && i < resBytes.length; i++)]
    walks both arrays in step until either ends; [matches++] is a checked
    [uint32] increment. *)
Fixpoint matching_loop (needsBytes resBytes : bytes) (matches : Z) : Result Z :=
  match needsBytes, resBytes with
  | n :: needsBytes', r :: resBytes' =>
      if Byte.eqb n r
      then try matches := checked_add UINT32_MAX matches 1 in
           matching_loop needsBytes' resBytes' matches
      else matching_loop needsBytes' resBytes' matches
  | _, _ => Ok matches
  end.

Definition calculatePriority (needs resources : bytes) : Result Z :=
  let needsBytes := needs in
  let resBytes := resources in
  try matches := matching_loop needsBytes resBytes 0 in
  try scaled := checked_mul UINT32_MAX matches 100 in
  checked_div scaled
    (to_uint32 (if blen needsBytes >? 0 then blen needsBytes else 1)).

(** The formulas as the description writes them. *)
Definition eligibility_formula (identity needs : bytes) : Z :=
  Z.min 100 ((if blen identity >? 10 then 50 else 0)
             + (if blen needs >? 5 then 50 else 0)).

(** Number of positions [i < min(len needs, len resources)] with
    [needs[i] == resources[i]]. *)
Definition matching_positions (needs resources : bytes) : Z :=
  Z.of_nat (length (filter (fun i : nat => needs !! i = resources !! i)
                      (seq 0 (Nat.min (length needs) (length resources))))).

Definition priority_formula (needs resources : bytes) : Z :=
  100 * matching_positions needs resources / Z.max 1 (blen needs).

Definition ascii_bytes (s : string) : bytes := list_byte_of_string s.

(** ** [abi.decode] (contract lines 121-122 and 175)

    [abi.decode] is a compiler built-in.  It is modelled after the contract
    ABI: the payload is a sequence of 32-byte big-endian words; a static
    [uint32] sits in its head word and must fit 32 bits; a dynamic [string]
    has in its head word the offset of a length word followed by the data. *)

Definition be_value (bs : bytes) : Z :=
  fold_left (fun acc b => acc * 256 + Z.of_N (Byte.to_N b)) bs 0.

(** [mload] of the 32-byte word at offset [p] of the payload. *)
Definition word_at (payload : bytes) (p : Z) : Z :=
  be_value (take 32 (drop (Z.to_nat p) payload)).

Definition abi_decode_uint32_uint32 (payload : bytes) : Result (Z * Z) :=
  if blen payload <? 64 then Fail AbiDecodeFailed
  else
    let a := word_at payload 0 in
    let b := word_at payload 32 in
    if (a <=? UINT32_MAX) && (b <=? UINT32_MAX) then Ok (a, b)
    else Fail AbiDecodeFailed.

(** A length word that does not fit the payload is answered here with
    [AbiDecodeFailed]; the compiled decoder allocates the string first and
    may answer a length close to [2^64] with [Panic 0x41] instead,
    depending on the free-memory pointer.  Both are reverts. *)
Definition abi_decode_string (payload : bytes) (head : Z) : Result bytes :=
  let offset := word_at payload head in
  if offset >? UINT64_MAX then Fail AbiDecodeFailed
  else if negb (offset + 31 <? blen payload) then Fail AbiDecodeFailed
  else
    let len := word_at payload offset in
    if len >? UINT64_MAX then Fail (Panic 65)
    else if offset + 32 + len >? blen payload then Fail AbiDecodeFailed
    else Ok (take (Z.to_nat len) (drop (Z.to_nat (offset + 32)) payload)).

Definition abi_decode_string_string_string (payload : bytes)
  : Result (bytes * bytes * bytes) :=
  if blen payload <? 96 then Fail AbiDecodeFailed
  else
    try a := abi_decode_string payload 0 in
    try b := abi_decode_string payload 32 in
    try c := abi_decode_string payload 64 in
    Ok (a, b, c).

(** The matching encoder, used to build callback payloads. *)
Definition byte_of_Z (v : Z) : byte :=
  default x00 (Byte.of_N (Z.to_N (v mod 256))).

Fixpoint be_bytes (n : nat) (v : Z) : bytes :=
  match n with
  | O => []
  | S n' => be_bytes n' (v / 256) ++ [byte_of_Z v]
  end.

Definition abi_word (v : Z) : bytes := be_bytes 32 v.

Definition abi_pad (b : bytes) : bytes :=
  b ++ repeat x00 (Z.to_nat ((- blen b) mod 32)).

Definition abi_tail (b : bytes) : bytes := abi_word (blen b) ++ abi_pad b.

Definition abi_encode_uint32_uint32 (a b : Z) : bytes :=
  abi_word a ++ abi_word b.

Definition abi_encode_string_string_string (a b c : bytes) : bytes :=
  let ta := abi_tail a in
  let tb := abi_tail b in
  let tc := abi_tail c in
  abi_word 96 ++ abi_word (96 + blen ta) ++ abi_word (96 + blen ta + blen tb)
    ++ ta ++ tb ++ tc.

(** ** Contract storage (contract lines 8-53) *)

(** An [euint32] is a 32-byte ciphertext handle. *)
Definition euint32 : Type := Z.

(** [FHE.toBytes32] unwraps the handle. *)
Definition toBytes32 (h : euint32) : Z := h.

Module EncryptedRefugee.
Record t : Type := mk {
  refugeeId : Z;
  encryptedIdentity : euint32;
  encryptedLocation : euint32;
  encryptedNeeds : euint32;
  timestamp : Z
}.
Definition zero : t := mk 0 0 0 0 0.
End EncryptedRefugee.

Module EncryptedAidPackage.
Record t : Type := mk {
  packageId : Z;
  encryptedResources : euint32;
  encryptedQuantities : euint32;
  timestamp : Z
}.
Definition zero : t := mk 0 0 0 0.
End EncryptedAidPackage.

Module EncryptedVerification.
Record t : Type := mk {
  verificationId : Z;
  encryptedEligibility : euint32;
  encryptedPriority : euint32;
  refugeeId : Z;
  packageId : Z;
  verifiedAt : Z
}.
Definition zero : t := mk 0 0 0 0 0 0.
End EncryptedVerification.

Module DecryptedResult.
Record t : Type := mk {
  eligibility : Z;
  priority : Z;
  isRevealed : bool
}.
Definition zero : t := mk 0 0 false.
End DecryptedResult.

Inductive Event : Type :=
| RefugeeRegistered (refugeeId timestamp : Z)
| AidPackageCreated (packageId timestamp : Z)
| VerificationRequested (requestId refugeeId : Z)
| VerificationCompleted (verificationId : Z)
| ResultDecrypted (verificationId : Z).

(** The callback selector handed to [FHE.requestDecryption]. *)
Inductive Selector : Type :=
| performVerification_selector
| decryptVerification_selector.

(** One call of [FHE.requestDecryption], as the oracle sees it. *)
Record DecryptionRequest : Type := mkRequest {
  req_id : Z;
  req_ciphertexts : list Z;
  req_callback : Selector
}.

(** The contract's storage, followed by what a transaction leaves outside
    it: the events it emitted and the decryption requests it submitted. *)
Record State : Type := mkState {
  refugeeCount : Z;
  packageCount : Z;
  verificationCount : Z;
  encryptedRefugees : gmap Z EncryptedRefugee.t;
  encryptedPackages : gmap Z EncryptedAidPackage.t;
  encryptedVerifications : gmap Z EncryptedVerification.t;
  decryptedResults : gmap Z DecryptedResult.t;
  requestToRefugeeId : gmap Z Z;
  verificationRequestToId : gmap Z Z;
  emitted : list Event;
  submitted : list DecryptionRequest
}.

(** The contract as deployed. *)
Definition deployed : State :=
  mkState 0 0 0 ∅ ∅ ∅ ∅ ∅ ∅ [] [].

Definition set_refugeeCount (v : Z) (s : State) : State :=
  mkState v (packageCount s) (verificationCount s) (encryptedRefugees s)
    (encryptedPackages s) (encryptedVerifications s) (decryptedResults s)
    (requestToRefugeeId s) (verificationRequestToId s) (emitted s) (submitted s).

Definition set_packageCount (v : Z) (s : State) : State :=
  mkState (refugeeCount s) v (verificationCount s) (encryptedRefugees s)
    (encryptedPackages s) (encryptedVerifications s) (decryptedResults s)
    (requestToRefugeeId s) (verificationRequestToId s) (emitted s) (submitted s).

Definition set_verificationCount (v : Z) (s : State) : State :=
  mkState (refugeeCount s) (packageCount s) v (encryptedRefugees s)
    (encryptedPackages s) (encryptedVerifications s) (decryptedResults s)
    (requestToRefugeeId s) (verificationRequestToId s) (emitted s) (submitted s).

Definition set_encryptedRefugees (m : gmap Z EncryptedRefugee.t) (s : State) : State :=
  mkState (refugeeCount s) (packageCount s) (verificationCount s) m
    (encryptedPackages s) (encryptedVerifications s) (decryptedResults s)
    (requestToRefugeeId s) (verificationRequestToId s) (emitted s) (submitted s).

Definition set_encryptedPackages (m : gmap Z EncryptedAidPackage.t) (s : State) : State :=
  mkState (refugeeCount s) (packageCount s) (verificationCount s) (encryptedRefugees s)
    m (encryptedVerifications s) (decryptedResults s)
    (requestToRefugeeId s) (verificationRequestToId s) (emitted s) (submitted s).

Definition set_encryptedVerifications (m : gmap Z EncryptedVerification.t) (s : State) : State :=
  mkState (refugeeCount s) (packageCount s) (verificationCount s) (encryptedRefugees s)
    (encryptedPackages s) m (decryptedResults s)
    (requestToRefugeeId s) (verificationRequestToId s) (emitted s) (submitted s).

Definition set_decryptedResults (m : gmap Z DecryptedResult.t) (s : State) : State :=
  mkState (refugeeCount s) (packageCount s) (verificationCount s) (encryptedRefugees s)
    (encryptedPackages s) (encryptedVerifications s) m
    (requestToRefugeeId s) (verificationRequestToId s) (emitted s) (submitted s).

Definition set_requestToRefugeeId (m : gmap Z Z) (s : State) : State :=
  mkState (refugeeCount s) (packageCount s) (verificationCount s) (encryptedRefugees s)
    (encryptedPackages s) (encryptedVerifications s) (decryptedResults s)
    m (verificationRequestToId s) (emitted s) (submitted s).

Definition set_verificationRequestToId (m : gmap Z Z) (s : State) : State :=
  mkState (refugeeCount s) (packageCount s) (verificationCount s) (encryptedRefugees s)
    (encryptedPackages s) (encryptedVerifications s) (decryptedResults s)
    (requestToRefugeeId s) m (emitted s) (submitted s).

Definition set_emitted (l : list Event) (s : State) : State :=
  mkState (refugeeCount s) (packageCount s) (verificationCount s) (encryptedRefugees s)
    (encryptedPackages s) (encryptedVerifications s) (decryptedResults s)
    (requestToRefugeeId s) (verificationRequestToId s) l (submitted s).

Definition set_submitted (l : list DecryptionRequest) (s : State) : State :=
  mkState (refugeeCount s) (packageCount s) (verificationCount s) (encryptedRefugees s)
    (encryptedPackages s) (encryptedVerifications s) (decryptedResults s)
    (requestToRefugeeId s) (verificationRequestToId s) (emitted s) l.

(** Reading a mapping: an unwritten key reads as the zero value. *)
Definition refugee_at (s : State) (k : Z) : EncryptedRefugee.t :=
  default EncryptedRefugee.zero (encryptedRefugees s !! k).
Definition package_at (s : State) (k : Z) : EncryptedAidPackage.t :=
  default EncryptedAidPackage.zero (encryptedPackages s !! k).
Definition verification_at (s : State) (k : Z) : EncryptedVerification.t :=
  default EncryptedVerification.zero (encryptedVerifications s !! k).
Definition result_at (s : State) (k : Z) : DecryptedResult.t :=
  default DecryptedResult.zero (decryptedResults s !! k).
Definition refugee_of_request (s : State) (k : Z) : Z :=
  default 0 (requestToRefugeeId s !! k).
Definition verification_of_request (s : State) (k : Z) : Z :=
  default 0 (verificationRequestToId s !! k).

(** ** The transaction monad *)

(** What a transaction sees of its surroundings: the caller, the block
    time, and the identifier [FHE.requestDecryption] hands out when the
    transaction calls it (the FHE library is not part of the repository). *)
Record Env : Type := mkEnv {
  msg_sender : Z;
  block_timestamp : Z;
  oracle_requestId : Z
}.

Definition M (A : Type) : Type := State -> Result (A * State).

Definition ret {A} (a : A) : M A := fun s => Ok (a, s).

Definition bind {A B} (c : M A) (k : A -> M B) : M B :=
  fun s => match c s with
           | Ok (a, s') => k a s'
           | Fail e => Fail e
           end.

Definition get : M State := fun s => Ok (s, s).
Definition modify (f : State -> State) : M unit := fun s => Ok (tt, f s).
Definition lift {A} (r : Result A) : M A :=
  fun s => match r with Ok a => Ok (a, s) | Fail e => Fail e end.
Definition require (cond : bool) (reason : string) : M unit :=
  fun s => if cond then Ok (tt, s) else Fail (RequireFailed reason).
Definition emit (e : Event) : M unit :=
  modify (fun s => set_emitted (emitted s ++ [e]) s).

Notation "'run' x := c 'in' k" := (bind c (fun x => k))
  (at level 10, x name, c at level 100, k at level 200, only parsing).
Notation "'step' c 'then' k" := (bind c (fun _ => k))
  (at level 10, c at level 100, k at level 200, only parsing).

(** Stand-ins for the two FHE library primitives, used where a statement
    is evaluated on concrete inputs. *)
Definition kms_accepts_all (requestId : Z) (cleartexts proof : bytes) : bool := true.
Definition kms_rejects_all (requestId : Z) (cleartexts proof : bytes) : bool := false.
Definition handle_of_value (v : Z) : euint32 := 1000 + v.

(** ** The contract's functions (contract lines 55-182) *)

Section Contract.

(** The FHE library is external: its signature check is a predicate on
    the callback's arguments and its trivial encryption a function from
    values to handles. *)
Variable checkSignatures : Z -> bytes -> bytes -> bool.
Variable asEuint32 : Z -> euint32.

(** [FHE.checkSignatures] reverts when the proof is rejected. *)
Definition FHE_checkSignatures (requestId : Z) (cleartexts proof : bytes) : M unit :=
  fun s => if checkSignatures requestId cleartexts proof
           then Ok (tt, s) else Fail InvalidKMSSignatures.

(** [FHE.requestDecryption]: the library is not part of the sources.  The
    request is recorded under the identifier the environment supplies;
    which identifiers the library hands out (each one once) is a condition
    on the environment, stated where a property needs it
    ([not_handed_out]). *)
Definition FHE_requestDecryption (env : Env) (ciphertexts : list Z)
    (callback : Selector) : M Z :=
  fun s =>
    let reqId := oracle_requestId env in
    Ok (reqId, set_submitted (submitted s ++ [mkRequest reqId ciphertexts callback]) s).

(** [modifier onlyAgency() { _; }]: the body runs as it is. *)
Definition onlyAgency {A} (env : Env) (body : M A) : M A := body.

Definition registerEncryptedRefugee (env : Env)
    (encryptedIdentity encryptedLocation encryptedNeeds : euint32) : M unit :=
  onlyAgency env (
    run s := get in
    run count := lift (checked_add UINT256_MAX (refugeeCount s) 1) in
    step modify (set_refugeeCount count) then
    let newRefugeeId := count in
    step modify (fun s =>
      set_encryptedRefugees
        (<[newRefugeeId :=
             EncryptedRefugee.mk newRefugeeId encryptedIdentity
               encryptedLocation encryptedNeeds (block_timestamp env)]>
           (encryptedRefugees s)) s) then
    emit (RefugeeRegistered newRefugeeId (block_timestamp env))).

Definition createAidPackage (env : Env)
    (encryptedResources encryptedQuantities : euint32) : M unit :=
  onlyAgency env (
    run s := get in
    run count := lift (checked_add UINT256_MAX (packageCount s) 1) in
    step modify (set_packageCount count) then
    let newPackageId := count in
    step modify (fun s =>
      set_encryptedPackages
        (<[newPackageId :=
             EncryptedAidPackage.mk newPackageId encryptedResources
               encryptedQuantities (block_timestamp env)]>
           (encryptedPackages s)) s) then
    emit (AidPackageCreated newPackageId (block_timestamp env))).

Definition verifyEligibility (env : Env) (refugeeId packageId : Z) : M unit :=
  onlyAgency env (
    run s := get in
    let refugee := refugee_at s refugeeId in
    let aidPackage := package_at s packageId in
    let ciphertexts :=
      [ toBytes32 (EncryptedRefugee.encryptedIdentity refugee);
        toBytes32 (EncryptedRefugee.encryptedNeeds refugee);
        toBytes32 (EncryptedAidPackage.encryptedResources aidPackage) ] in
    run reqId := FHE_requestDecryption env ciphertexts performVerification_selector in
    step modify (fun s =>
      set_requestToRefugeeId (<[reqId := refugeeId]> (requestToRefugeeId s)) s) then
    emit (VerificationRequested reqId refugeeId)).

Definition performVerification (env : Env) (requestId : Z)
    (cleartexts proof : bytes) : M unit :=
  run s := get in
  let refugeeId := refugee_of_request s requestId in
  step require (negb (refugeeId =? 0)) "Invalid request" then
  step FHE_checkSignatures requestId cleartexts proof then
  run decoded := lift (abi_decode_string_string_string cleartexts) in
  let '(identity, needs, resources) := decoded in
  run s := get in
  run count := lift (checked_add UINT256_MAX (verificationCount s) 1) in
  step modify (set_verificationCount count) then
  let newVerificationId := count in
  run eligibility := lift (calculateEligibility identity needs) in
  run priority := lift (calculatePriority needs resources) in
  step modify (fun s =>
    set_encryptedVerifications
      (<[newVerificationId :=
           EncryptedVerification.mk newVerificationId (asEuint32 eligibility)
             (asEuint32 priority) refugeeId 0 (block_timestamp env)]>
         (encryptedVerifications s)) s) then
  step modify (fun s =>
    set_decryptedResults
      (<[newVerificationId := DecryptedResult.mk eligibility priority false]>
         (decryptedResults s)) s) then
  emit (VerificationCompleted newVerificationId).

Definition requestVerificationResult (env : Env) (verificationId : Z) : M unit :=
  onlyAgency env (
    run s := get in
    let verification := verification_at s verificationId in
    step require (negb (DecryptedResult.isRevealed (result_at s verificationId)))
           "Already decrypted" then
    let ciphertexts :=
      [ toBytes32 (EncryptedVerification.encryptedEligibility verification);
        toBytes32 (EncryptedVerification.encryptedPriority verification) ] in
    run reqId := FHE_requestDecryption env ciphertexts decryptVerification_selector in
    modify (fun s =>
      set_verificationRequestToId
        (<[reqId := verificationId]> (verificationRequestToId s)) s)).

(** A write through the storage pointer [dResult] to one field of
    [decryptedResults[k]]. *)
Definition store_result (k : Z) (f : DecryptedResult.t -> DecryptedResult.t) : M unit :=
  modify (fun s =>
    set_decryptedResults (<[k := f (result_at s k)]> (decryptedResults s)) s).

Definition decryptVerification (env : Env) (requestId : Z)
    (cleartexts proof : bytes) : M unit :=
  run s := get in
  let verificationId := verification_of_request s requestId in
  step require (negb (verificationId =? 0)) "Invalid request" then
  let dResult := verificationId in
  step require (negb (DecryptedResult.isRevealed (result_at s dResult)))
         "Already decrypted" then
  step FHE_checkSignatures requestId cleartexts proof then
  run decoded := lift (abi_decode_uint32_uint32 cleartexts) in
  let '(eligibility, priority) := decoded in
  step store_result dResult (fun r =>
    DecryptedResult.mk eligibility (DecryptedResult.priority r)
      (DecryptedResult.isRevealed r)) then
  step store_result dResult (fun r =>
    DecryptedResult.mk (DecryptedResult.eligibility r) priority
      (DecryptedResult.isRevealed r)) then
  step store_result dResult (fun r =>
    DecryptedResult.mk (DecryptedResult.eligibility r)
      (DecryptedResult.priority r) true) then
  emit (ResultDecrypted verificationId).

(** The view functions (contract lines 184-221). *)
Definition getDecryptedResult (s : State) (verificationId : Z) : Z * Z * bool :=
  let r := result_at s verificationId in
  (DecryptedResult.eligibility r, DecryptedResult.priority r,
   DecryptedResult.isRevealed r).

Definition getEncryptedVerification (s : State) (verificationId : Z)
  : euint32 * euint32 * Z * Z * Z :=
  let v := verification_at s verificationId in
  (EncryptedVerification.encryptedEligibility v,
   EncryptedVerification.encryptedPriority v,
   EncryptedVerification.refugeeId v,
   EncryptedVerification.packageId v,
   EncryptedVerification.verifiedAt v).

(** ** Transactions *)

Inductive Call : Type :=
| RegisterEncryptedRefugee (encryptedIdentity encryptedLocation encryptedNeeds : euint32)
| CreateAidPackage (encryptedResources encryptedQuantities : euint32)
| VerifyEligibility (refugeeId packageId : Z)
| PerformVerification (requestId : Z) (cleartexts proof : bytes)
| RequestVerificationResult (verificationId : Z)
| DecryptVerification (requestId : Z) (cleartexts proof : bytes).

Definition dispatch (env : Env) (c : Call) : M unit :=
  match c with
  | RegisterEncryptedRefugee i l n => registerEncryptedRefugee env i l n
  | CreateAidPackage r q => createAidPackage env r q
  | VerifyEligibility r p => verifyEligibility env r p
  | PerformVerification r c p => performVerification env r c p
  | RequestVerificationResult v => requestVerificationResult env v
  | DecryptVerification r c p => decryptVerification env r c p
  end.

Inductive Outcome : Type :=
| Success
| Reverted (e : Revert).

(** A transaction either commits the state its call produced or, on a
    revert, leaves the state it started from. *)
Definition execute (env : Env) (c : Call) (s : State) : State * Outcome :=
  match dispatch env c s with
  | Ok (_, s') => (s', Success)
  | Fail e => (s, Reverted e)
  end.

(** The states the contract can be in: any number of transactions after
    deployment. *)
Inductive reachable : State -> Prop :=
| reachable_deployed : reachable deployed
| reachable_execute env c s :
    reachable s -> reachable (fst (execute env c s)).

(** A run of record-creation calls, each with its own environment and
    arguments; it returns the identifiers the successful calls assigned,
    oldest first. *)
Fixpoint register_all (calls : list (Env * (euint32 * euint32 * euint32)))
    (s : State) : State * list Z :=
  match calls with
  | [] => (s, [])
  | (env, (i, l, n)) :: calls' =>
      match execute env (RegisterEncryptedRefugee i l n) s with
      | (s', Success) =>
          let '(s'', ids) := register_all calls' s' in
          (s'', refugeeCount s' :: ids)
      | (s', Reverted _) => register_all calls' s'
      end
  end.

(** A sequence of transactions, applied in order. *)
Definition transact (txs : list (Env * Call)) (s : State) : State :=
  fold_left (fun s tx => fst (execute (fst tx) (snd tx) s)) txs s.

(** The functions declared [onlyAgency]. *)
Definition agency_only (c : Call) : bool :=
  match c with
  | RegisterEncryptedRefugee _ _ _ | CreateAidPackage _ _
  | VerifyEligibility _ _ | RequestVerificationResult _ => true
  | PerformVerification _ _ _ | DecryptVerification _ _ _ => false
  end.

(** The access gate as the description states it: when the authorization
    decision for the caller and the operation is a denial, the operation
    fails and leaves the state as it was. *)
Definition gate_enforced (isAuthorized : Z -> Call -> bool) : Prop :=
  forall env c s,
    agency_only c = true ->
    isAuthorized (msg_sender env) c = false ->
    exists e, execute env c s = (s, Reverted e).

End Contract.

(** ** Sample inputs *)

Definition sample_strings : bytes :=
  abi_encode_string_string_string (ascii_bytes "refugee-id-001")
    (ascii_bytes "food,water") (ascii_bytes "food,water").

Definition sample_scores : bytes := abi_encode_uint32_uint32 100 100.

Definition other_scores : bytes := abi_encode_uint32_uint32 7 9.

(** An environment: caller, block time, and the request identifier the
    oracle hands out in this transaction. *)
Definition at_time (t reqId : Z) : Env := mkEnv 2748 t reqId.

Definition sample_execute : Env -> Call -> State -> State * Outcome :=
  execute kms_accepts_all handle_of_value.

Definition sample_transact : list (Env * Call) -> State -> State :=
  transact kms_accepts_all handle_of_value.

(** One refugee, one package, and an eligibility request for them that the
    oracle numbered 7. *)
Definition eligibility_requested : State :=
  sample_transact
    [ (at_time 100 0, RegisterEncryptedRefugee 11 12 13);
      (at_time 101 0, CreateAidPackage 21 22);
      (at_time 102 7, VerifyEligibility 1 1) ]
    deployed.

(** The same, after the callback for request 7 was delivered once. *)
Definition callback_delivered : State :=
  sample_transact [ (at_time 103 0, PerformVerification 7 sample_strings []) ]
    eligibility_requested.

(** A reveal requested, as request 41, for verification 1 before any
    verification exists, and its callback delivered with the values 7, 9. *)
Definition revealed_early : State :=
  sample_transact
    [ (at_time 100 41, RequestVerificationResult 1);
      (at_time 101 0, DecryptVerification 41 other_scores []) ]
    deployed.


(** Then a refugee is registered and verified: the first verification is
    created. *)
Definition verified_later : State :=
  sample_transact
    [ (at_time 102 0, RegisterEncryptedRefugee 11 12 13);
      (at_time 103 42, VerifyEligibility 1 0);
      (at_time 104 0, PerformVerification 42 sample_strings []) ]
    revealed_early.

(** And its result is revealed through request 43. *)
Definition revealed_again : State :=
  sample_transact
    [ (at_time 105 43, RequestVerificationResult 1);
      (at_time 106 0, DecryptVerification 43 sample_scores []) ]
    verified_later.

(** ** The record actions of the web client (App.tsx lines 89-364, 552-591)

    The client keeps each aid record as JSON text under the key
    ["aid_" + id] of a key-value contract reached through
    [getData]/[setData].  That contract and the [./contract] module are not
    part of the sources; the store is taken as a finite map from keys to
    the stored JSON value ([JSON.stringify] followed by [JSON.parse] is
    taken as the identity on stored values).  A key is absent from the map
    when [getData] returns a value of length 0 for it; whether a key that
    was never set reads that way is decided by the contract and the client
    library, not by these sources, and a returned text that does not parse
    as JSON is outside this model. *)

Module Frontend.

#[local] Unset Elimination Schemes.
Inductive JSON : Type :=
| JNull
| JBool (b : bool)
| JNum (n : Z)
| JStr (s : string)
| JArr (items : list JSON)
| JObj (fields : list (string * JSON)).
#[local] Set Elimination Schemes.

Definition Store : Type := gmap string JSON.

(** [o.k]: [None] stands for [undefined]. *)
Fixpoint get_field (k : string) (fields : list (string * JSON)) : option JSON :=
  match fields with
  | [] => None
  | (k', v) :: fields' => if String.eqb k' k then Some v else get_field k fields'
  end.

(** Defining property [k] on an object: an existing property keeps its
    place and takes the new value, a new one goes last. *)
Fixpoint set_field (k : string) (v : JSON) (fields : list (string * JSON))
  : list (string * JSON) :=
  match fields with
  | [] => [(k, v)]
  | (k', v') :: fields' =>
      if String.eqb k' k then (k, v) :: fields'
      else (k', v') :: set_field k v fields'
  end.

(** The own enumerable properties an object spread [{...v}] copies. *)
Definition spread (v : JSON) : list (string * JSON) :=
  match v with
  | JObj fields => fields
  | JArr items => imap (fun i x => (pretty i, x)) items
  | JStr s => imap (fun i c => (pretty i, JStr (String c EmptyString)))
                (list_ascii_of_string s)
  | JNull | JBool _ | JNum _ => []
  end.

Definition truthy (v : option JSON) : bool :=
  match v with
  | None | Some JNull => false
  | Some (JBool b) => b
  | Some (JNum n) => negb (n =? 0)
  | Some (JStr s) => negb (String.eqb s "")
  | Some (JArr _) | Some (JObj _) => true
  end.

(** [v === "literal"] *)
Definition is_string (v : JSON) (literal : string) : bool :=
  match v with
  | JStr s => String.eqb s literal
  | _ => false
  end.

Definition record_key (recordId : string) : string := "aid_" ++ recordId.

(** What an action leaves behind. *)
Inductive ActionResult : Type :=
| NoWallet                      (* alert; nothing is sent *)
| ActionError (message : string) (* the catch branch *)
| ActionDone (store : Store).    (* the record was written *)

(** [{...recordData, status: newStatus}] written back under the record's
    key; [provider] says whether a wallet is connected and [signer]
    whether [getContractWithSigner] returned a contract.  The [None]
    branch is the test [recordBytes.length === 0]: it is taken when
    [getData] returns a value of length 0, and the message of the thrown
    error reaches the user behind the action's prefix. *)
Definition write_status (failure : string) (newStatus : string)
    (provider signer : bool) (store : Store) (recordId : string) : ActionResult :=
  if negb provider then NoWallet
  else if negb signer
  then ActionError (failure ++ "Failed to get contract with signer")
  else
    match store !! record_key recordId with
    | None => ActionError (failure ++ "Record not found")
    | Some recordData =>
        let updatedRecord := JObj (set_field "status" (JStr newStatus) (spread recordData)) in
        ActionDone (<[record_key recordId := updatedRecord]> store)
    end.

Definition approveRecord : bool -> bool -> Store -> string -> ActionResult :=
  write_status "Verification failed: " "approved".

Definition distributeRecord : bool -> bool -> Store -> string -> ActionResult :=
  write_status "Distribution failed: " "distributed".

(** The status a loaded record shows: [recordData.status || "pending"]. *)
Definition shown_status (recordData : JSON) : JSON :=
  let status := get_field "status" (spread recordData) in
  if truthy status then default JNull status else JStr "pending".

(** The buttons of a record's row. *)
Inductive Button : Type := Details | Approve | Distribute.

Definition row_buttons (status : JSON) : list Button :=
  [Details]
    ++ (if is_string status "pending" then [Approve] else [])
    ++ (if is_string status "approved" then [Distribute] else []).

(** The status values of the [AidRecord] interface. *)
Definition statuses : list string := ["pending"; "approved"; "distributed"; "rejected"].

(** A record as [submitRecord] lays it out, with a given status. *)
Definition sample_record (status : string) : JSON :=
  JObj [ ("data", JStr "FHE-e30=");
         ("timestamp", JNum 1700000000);
         ("owner", JStr "0xabc");
         ("category", JStr "food");
         ("status", JStr status);
         ("amount", JNum 3);
         ("location", JStr "camp");
         ("needs", JArr [JStr "water"]) ].

Definition sample_store : Store :=
  <[record_key "r1" := sample_record "distributed"]>
    (<[record_key "r2" := sample_record "rejected"]> ∅).

End Frontend.

(** ** The state each call leaves when it succeeds *)

Section PostStates.

Variable asEuint32 : Z -> euint32.

Definition performVerification_post (env : Env) (s : State)
    (refugeeId eligibility priority : Z) : State :=
  let newVerificationId := verificationCount s + 1 in
  mkState (refugeeCount s) (packageCount s) newVerificationId
    (encryptedRefugees s) (encryptedPackages s)
    (<[newVerificationId :=
         EncryptedVerification.mk newVerificationId (asEuint32 eligibility)
           (asEuint32 priority) refugeeId 0 (block_timestamp env)]>
       (encryptedVerifications s))
    (<[newVerificationId := DecryptedResult.mk eligibility priority false]>
       (decryptedResults s))
    (requestToRefugeeId s) (verificationRequestToId s)
    (emitted s ++ [VerificationCompleted newVerificationId])
    (submitted s).

Definition requestVerificationResult_post (env : Env) (s : State)
    (verificationId : Z) : State :=
  let reqId := oracle_requestId env in
  mkState (refugeeCount s) (packageCount s) (verificationCount s)
    (encryptedRefugees s) (encryptedPackages s)
    (encryptedVerifications s) (decryptedResults s)
    (requestToRefugeeId s)
    (<[reqId := verificationId]> (verificationRequestToId s))
    (emitted s)
    (submitted s ++
       [mkRequest reqId
          [EncryptedVerification.encryptedEligibility (verification_at s verificationId);
           EncryptedVerification.encryptedPriority (verification_at s verificationId)]
          decryptVerification_selector]).

Definition decryptVerification_post (s : State)
    (verificationId eligibility priority : Z) : State :=
  mkState (refugeeCount s) (packageCount s) (verificationCount s)
    (encryptedRefugees s) (encryptedPackages s)
    (encryptedVerifications s)
    (<[verificationId := DecryptedResult.mk eligibility priority true]>
       (decryptedResults s))
    (requestToRefugeeId s) (verificationRequestToId s)
    (emitted s ++ [ResultDecrypted verificationId])
    (submitted s).

End PostStates.

(** ** The record store's numbering *)

(** Records are numbered from 1 to [refugeeCount] without gaps, each under
    its own identifier, and nothing is stored outside that range. *)
Definition refugees_numbered (s : State) : Prop :=
  0 <= refugeeCount s <= UINT256_MAX
  /\ Z.of_nat (size (encryptedRefugees s)) = refugeeCount s
  /\ (forall k, is_Some (encryptedRefugees s !! k) <-> 1 <= k <= refugeeCount s)
  /\ (forall k r, encryptedRefugees s !! k = Some r -> EncryptedRefugee.refugeeId r = k).

(** ** The remaining views (contract lines 193-210) *)

Definition getEncryptedRefugee (s : State) (refugeeId : Z)
  : euint32 * euint32 * euint32 * Z :=
  let r := refugee_at s refugeeId in
  (EncryptedRefugee.encryptedIdentity r, EncryptedRefugee.encryptedLocation r,
   EncryptedRefugee.encryptedNeeds r, EncryptedRefugee.timestamp r).

Definition getEncryptedAidPackage (s : State) (packageId : Z)
  : euint32 * euint32 * Z :=
  let p := package_at s packageId in
  (EncryptedAidPackage.encryptedResources p, EncryptedAidPackage.encryptedQuantities p,
   EncryptedAidPackage.timestamp p).

(** ** Committed transactions as a relation *)

Section Committed.

Variable checkSignatures : Z -> bytes -> bytes -> bool.
Variable asEuint32 : Z -> euint32.

Definition registerEncryptedRefugee_post (env : Env) (s : State)
    (encryptedIdentity encryptedLocation encryptedNeeds : euint32) : State :=
  let newRefugeeId := refugeeCount s + 1 in
  mkState newRefugeeId (packageCount s) (verificationCount s)
    (<[newRefugeeId :=
         EncryptedRefugee.mk newRefugeeId encryptedIdentity encryptedLocation
           encryptedNeeds (block_timestamp env)]> (encryptedRefugees s))
    (encryptedPackages s) (encryptedVerifications s) (decryptedResults s)
    (requestToRefugeeId s) (verificationRequestToId s)
    (emitted s ++ [RefugeeRegistered newRefugeeId (block_timestamp env)])
    (submitted s).

Definition createAidPackage_post (env : Env) (s : State)
    (encryptedResources encryptedQuantities : euint32) : State :=
  let newPackageId := packageCount s + 1 in
  mkState (refugeeCount s) newPackageId (verificationCount s)
    (encryptedRefugees s)
    (<[newPackageId :=
         EncryptedAidPackage.mk newPackageId encryptedResources encryptedQuantities
           (block_timestamp env)]> (encryptedPackages s))
    (encryptedVerifications s) (decryptedResults s)
    (requestToRefugeeId s) (verificationRequestToId s)
    (emitted s ++ [AidPackageCreated newPackageId (block_timestamp env)])
    (submitted s).

Definition verifyEligibility_post (env : Env) (s : State)
    (refugeeId packageId : Z) : State :=
  let reqId := oracle_requestId env in
  mkState (refugeeCount s) (packageCount s) (verificationCount s)
    (encryptedRefugees s) (encryptedPackages s)
    (encryptedVerifications s) (decryptedResults s)
    (<[reqId := refugeeId]> (requestToRefugeeId s))
    (verificationRequestToId s)
    (emitted s ++ [VerificationRequested reqId refugeeId])
    (submitted s ++
       [mkRequest reqId
          [EncryptedRefugee.encryptedIdentity (refugee_at s refugeeId);
           EncryptedRefugee.encryptedNeeds (refugee_at s refugeeId);
           EncryptedAidPackage.encryptedResources (package_at s packageId)]
          performVerification_selector]).

(** [committed env s c s']: the call [c], made in state [s], goes through
    and leaves [s'].  One rule per function, with the conditions under
    which the function does not revert. *)
Inductive committed (env : Env) (s : State) : Call -> State -> Prop :=
| committed_register i l n :
    refugeeCount s + 1 <= UINT256_MAX ->
    committed env s (RegisterEncryptedRefugee i l n)
      (registerEncryptedRefugee_post env s i l n)
| committed_package r q :
    packageCount s + 1 <= UINT256_MAX ->
    committed env s (CreateAidPackage r q) (createAidPackage_post env s r q)
| committed_verify refugeeId packageId :
    committed env s (VerifyEligibility refugeeId packageId)
      (verifyEligibility_post env s refugeeId packageId)
| committed_perform requestId cleartexts proof identity needs resources eligibility priority :
    refugee_of_request s requestId <> 0 ->
    checkSignatures requestId cleartexts proof = true ->
    abi_decode_string_string_string cleartexts = Ok (identity, needs, resources) ->
    verificationCount s + 1 <= UINT256_MAX ->
    calculateEligibility identity needs = Ok eligibility ->
    calculatePriority needs resources = Ok priority ->
    committed env s (PerformVerification requestId cleartexts proof)
      (performVerification_post asEuint32 env s (refugee_of_request s requestId)
         eligibility priority)
| committed_request verificationId :
    DecryptedResult.isRevealed (result_at s verificationId) = false ->
    committed env s (RequestVerificationResult verificationId)
      (requestVerificationResult_post env s verificationId)
| committed_decrypt requestId cleartexts proof eligibility priority :
    verification_of_request s requestId <> 0 ->
    DecryptedResult.isRevealed (result_at s (verification_of_request s requestId)) = false ->
    checkSignatures requestId cleartexts proof = true ->
    abi_decode_uint32_uint32 cleartexts = Ok (eligibility, priority) ->
    committed env s (DecryptVerification requestId cleartexts proof)
      (decryptVerification_post s (verification_of_request s requestId)
         eligibility priority).

End Committed.

(** ** Ledger invariants *)

(** Packages are numbered like records. *)
Definition packages_numbered (s : State) : Prop :=
  0 <= packageCount s <= UINT256_MAX
  /\ Z.of_nat (size (encryptedPackages s)) = packageCount s
  /\ (forall k, is_Some (encryptedPackages s !! k) <-> 1 <= k <= packageCount s)
  /\ (forall k p, encryptedPackages s !! k = Some p -> EncryptedAidPackage.packageId p = k).

(** Verifications are numbered from 1 to [verificationCount]; each carries
    its own identifier, package 0 and a refugee identifier other than 0,
    and has a result entry. *)
Definition verifications_numbered (s : State) : Prop :=
  0 <= verificationCount s <= UINT256_MAX
  /\ Z.of_nat (size (encryptedVerifications s)) = verificationCount s
  /\ (forall k, is_Some (encryptedVerifications s !! k) <-> 1 <= k <= verificationCount s)
  /\ (forall k v, encryptedVerifications s !! k = Some v ->
        EncryptedVerification.verificationId v = k
        /\ EncryptedVerification.packageId v = 0
        /\ EncryptedVerification.refugeeId v <> 0
        /\ is_Some (decryptedResults s !! k)).

(** Every correlation entry stands for a decryption request the contract
    submitted, with the matching callback. *)
Definition requests_issued (s : State) : Prop :=
  (forall k, is_Some (requestToRefugeeId s !! k) ->
     exists cts, In (mkRequest k cts performVerification_selector) (submitted s))
  /\ (forall k, is_Some (verificationRequestToId s !! k) ->
        exists cts, In (mkRequest k cts decryptVerification_selector) (submitted s)).


Definition is_RefugeeRegistered (e : Event) : bool :=
  match e with RefugeeRegistered _ _ => true | _ => false end.
Definition is_AidPackageCreated (e : Event) : bool :=
  match e with AidPackageCreated _ _ => true | _ => false end.
Definition is_VerificationRequested (e : Event) : bool :=
  match e with VerificationRequested _ _ => true | _ => false end.
Definition is_VerificationCompleted (e : Event) : bool :=
  match e with VerificationCompleted _ => true | _ => false end.
Definition is_eligibility_request (r : DecryptionRequest) : bool :=
  match req_callback r with
  | performVerification_selector => true
  | decryptVerification_selector => false
  end.

Definition count_of {A} (p : A -> bool) (l : list A) : Z :=
  Z.of_nat (length (List.filter p l)).

(** The event log accounts for the counters: one event per record, per
    package and per verification, and one [VerificationRequested] per
    eligibility request submitted. *)
Definition log_matches_counters (s : State) : Prop :=
  count_of is_RefugeeRegistered (emitted s) = refugeeCount s
  /\ count_of is_AidPackageCreated (emitted s) = packageCount s
  /\ count_of is_VerificationCompleted (emitted s) = verificationCount s
  /\ count_of is_VerificationRequested (emitted s)
     = count_of is_eligibility_request (submitted s).

(** ** More of the web client: the request form, submission and loading
    (App.tsx lines 34-40, 115-139, 151-246, 684-714, 783-803) *)

Module Client.

Import Frontend.

(** A slot of a JavaScript array of strings: a hole (no element), the
    value [undefined], or a string. *)
Inductive Slot : Type :=
| Hole
| Undefined
| Text (s : string).

(** [[...arr]]: a dense copy; a hole is read as [undefined]. *)
Definition spread_array (arr : list Slot) : list Slot :=
  List.map (fun x => match x with Hole => Undefined | _ => x end) arr.

(** [arr[index] = value], for an array position [index]: writing past the
    end lengthens the array and leaves holes in between. *)
Definition assign (arr : list Slot) (index : nat) (value : string) : list Slot :=
  if (index <? length arr)%nat then <[index := Text value]> arr
  else (arr ++ repeat Hole (index - length arr) ++ [Text value])%list.

(** [arr.filter((_, i) => i !== index)]: [filter] does not visit holes. *)
Fixpoint filter_not_index (arr : list Slot) (i index : nat) : list Slot :=
  match arr with
  | [] => []
  | Hole :: arr' => filter_not_index arr' (S i) index
  | x :: arr' =>
      if (i =? index)%nat then filter_not_index arr' (S i) index
      else x :: filter_not_index arr' (S i) index
  end.

(** The form state [newRecordData]. *)
Record FormData : Type := mkForm {
  category : JSON;
  description : JSON;
  amount : JSON;
  location : JSON;
  needs : list Slot
}.

(** Its initial value (lines 34-40). *)
Definition initial_form : FormData :=
  mkForm (JStr "food") (JStr "") (JNum 0) (JStr "") [Text ""].

Definition with_needs (recordData : FormData) (newNeeds : list Slot) : FormData :=
  mkForm (category recordData) (description recordData) (amount recordData)
    (location recordData) newNeeds.

(** The inputs that call [handleChange] are named category, amount and
    location; [{...recordData, [name]: value}] replaces that field by the
    input's text. *)
Inductive FieldName : Type := category_field | amount_field | location_field.

Definition handleChange (recordData : FormData) (name : FieldName) (value : string)
  : FormData :=
  match name with
  | category_field =>
      mkForm (JStr value) (description recordData) (amount recordData)
        (location recordData) (needs recordData)
  | amount_field =>
      mkForm (category recordData) (description recordData) (JStr value)
        (location recordData) (needs recordData)
  | location_field =>
      mkForm (category recordData) (description recordData) (amount recordData)
        (JStr value) (needs recordData)
  end.

Definition handleNeedChange (recordData : FormData) (index : nat) (value : string)
  : FormData :=
  let newNeeds := assign (spread_array (needs recordData)) index value in
  with_needs recordData newNeeds.

Definition addNeed (recordData : FormData) : FormData :=
  with_needs recordData (spread_array (needs recordData) ++ [Text ""])%list.

Definition removeNeed (recordData : FormData) (index : nat) : FormData :=
  let newNeeds := filter_not_index (needs recordData) 0 index in
  with_needs recordData newNeeds.

(** What the form lets the user do: [needs.map] draws an input for every
    element (not for a hole), the remove button next to it only while the
    array has more than one entry, and one add button; the three named
    inputs are always there. *)
Inductive FormAction : Type :=
| ChangeField (name : FieldName) (value : string)
| ChangeNeed (index : nat) (value : string)
| AddNeed
| RemoveNeed (index : nat).

Definition drawn (recordData : FormData) (index : nat) : bool :=
  match needs recordData !! index with
  | Some Hole | None => false
  | Some _ => true
  end.

Definition offered (recordData : FormData) (a : FormAction) : bool :=
  match a with
  | ChangeField _ _ => true
  | ChangeNeed index _ => drawn recordData index
  | AddNeed => true
  | RemoveNeed index =>
      drawn recordData index && (1 <? length (needs recordData))%nat
  end.

Definition act (recordData : FormData) (a : FormAction) : FormData :=
  match a with
  | ChangeField name value => handleChange recordData name value
  | ChangeNeed index value => handleNeedChange recordData index value
  | AddNeed => addNeed recordData
  | RemoveNeed index => removeNeed recordData index
  end.

(** The forms the user can arrive at from the initial one. *)
Inductive form_reachable : FormData -> Prop :=
| form_initial : form_reachable initial_form
| form_act recordData a :
    form_reachable recordData -> offered recordData a = true ->
    form_reachable (act recordData a).

Definition is_text (x : Slot) : bool :=
  match x with Text _ => true | _ => false end.

(** ** Submission (lines 151-246) *)



Section Submit.

(** [`FHE-${btoa(JSON.stringify(newRecordData))}`]: built-ins, taken as a
    function that fails where [btoa] throws. *)
Variable encrypt : FormData -> option string.

(** [need.trim() === ""] *)
Variable blank : string -> bool.

(** [needs.filter(need => need.trim() !== "")]: holes are not visited,
    [undefined.trim()] throws ([None]). *)
Fixpoint kept_needs (arr : list Slot) : option (list JSON) :=
  match arr with
  | [] => Some []
  | Hole :: arr' => kept_needs arr'
  | Undefined :: _ => None
  | Text s :: arr' =>
      match kept_needs arr' with
      | None => None
      | Some rest => Some (if blank s then rest else JStr s :: rest)
      end
  end.





End Submit.

(** ** Loading one record (the body of the loop, lines 115-139) *)

(** The entry [loadRecords] builds for a key. *)
Record AidRecord : Type := mkAidRecord {
  row_id : string;
  row_encryptedData : option JSON;
  row_timestamp : option JSON;
  row_owner : option JSON;
  row_category : option JSON;
  row_status : JSON;
  row_amount : JSON;
  row_location : JSON;
  row_needs : JSON
}.

(** [recordData.name] for the eight names the loop reads: an object gives
    its field or [undefined]; a string, number, boolean or array has no
    such property; reading a property of [null] throws (outer [None]). *)
Definition read (recordData : JSON) (name : string) : option (option JSON) :=
  match recordData with
  | JNull => None
  | JObj fields => Some (get_field name fields)
  | JBool _ | JNum _ | JStr _ | JArr _ => Some None
  end.

(** [a || b] *)
Definition or_else (a : option JSON) (b : JSON) : JSON :=
  if truthy a then default JNull a else b.

(** For the key [key]: nothing is listed when no bytes are stored under
    ["aid_" + key] or when building the entry throws. *)
Definition load_row (store : Store) (key : string) : option AidRecord :=
  match store !! record_key key with
  | None => None
  | Some recordData =>
      match recordData with
      | JNull => None
      | _ =>
          let field name := default None (read recordData name) in
          Some (mkAidRecord key (field "data") (field "timestamp") (field "owner")
                  (field "category")
                  (or_else (field "status") (JStr "pending"))
                  (or_else (field "amount") (JNum 0))
                  (or_else (field "location") (JStr ""))
                  (or_else (field "needs") (JArr [])))
      end
  end.

(** The same entry with another status. *)
Definition with_status (row : AidRecord) (status : JSON) : AidRecord :=
  mkAidRecord (row_id row) (row_encryptedData row) (row_timestamp row) (row_owner row)
    (row_category row) status (row_amount row) (row_location row) (row_needs row).

Definition sample_form : FormData :=
  mkForm (JStr "medical") (JStr "insulin") (JStr "3") (JStr "camp 4")
    [Text "insulin"; Text " "; Text "syringes"].

End Client.

(** ** Request identifiers handed out by the oracle *)

(** Whether a transaction is handed the request identifier [r]: the two
    functions that call [FHE.requestDecryption] obtain the identifier of
    their environment. *)
Definition obtains (r : Z) (tx : Env * Call) : bool :=
  match snd tx with
  | VerifyEligibility _ _ | RequestVerificationResult _ => oracle_requestId (fst tx) =? r
  | RegisterEncryptedRefugee _ _ _ | CreateAidPackage _ _
  | PerformVerification _ _ _ | DecryptVerification _ _ _ => false
  end.

(** The oracle hands [r] out to none of the transactions. *)
Definition not_handed_out (r : Z) (txs : list (Env * Call)) : Prop :=
  Forall (fun tx => obtains r tx = false) txs.

(** A signature check that accepts a proof exactly when it is not empty,
    for evaluation with both outcomes. *)
Definition kms_accepts_signed (requestId : Z) (cleartexts proof : bytes) : bool :=
  negb (Nat.eqb (length proof) 0).

Definition signed : bytes := [Byte.x01].

(** One refugee verified and the result revealed, every callback carrying
    a signed proof. *)
Definition revealed_with_signed_proofs : State :=
  transact kms_accepts_signed handle_of_value
    [ (at_time 100 0, RegisterEncryptedRefugee 11 12 13);
      (at_time 101 42, VerifyEligibility 1 0);
      (at_time 102 0, PerformVerification 42 sample_strings signed);
      (at_time 103 43, RequestVerificationResult 1);
      (at_time 104 0, DecryptVerification 43 sample_scores signed) ]
    deployed.

(** * Properties *)

(** ** Scoring *)

Lemma calculateEligibility_formula (identity needs : bytes) :
  calculateEligibility identity needs = Ok (eligibility_formula identity needs).
Proof.
  unfold calculateEligibility, eligibility_formula.
  destruct (blen identity >? 10), (blen needs >? 5); reflexivity.
Qed.

Lemma matching_positions_nil_l (resources : bytes) :
  matching_positions [] resources = 0.
Proof. reflexivity. Qed.

Lemma matching_positions_nil_r (needs : bytes) :
  matching_positions needs [] = 0.
Proof. unfold matching_positions. rewrite Nat.min_0_r. reflexivity. Qed.

Lemma matching_positions_cons (n r : byte) (needs resources : bytes) :
  matching_positions (n :: needs) (r :: resources)
  = (if Byte.eqb n r then 1 else 0) + matching_positions needs resources.
Proof.
  unfold matching_positions. cbn [length Nat.min seq].
  rewrite filter_cons, <- fmap_S_seq.
  assert (Hshift : forall l : list nat,
    length (filter (fun i : nat => (n :: needs) !! i = (r :: resources) !! i) (S <$> l))
    = length (filter (fun i : nat => needs !! i = resources !! i) l)).
  { intros l. induction l as [|i l IH]; [reflexivity|].
    rewrite fmap_cons, !filter_cons.
    change ((n :: needs) !! S i) with (needs !! i).
    change ((r :: resources) !! S i) with (resources !! i).
    repeat case_decide; cbn [length]; congruence. }
  destruct (Byte.eqb n r) eqn:E.
  - apply Byte.byte_dec_bl in E. subst r.
    case_decide; [|contradiction].
    cbn [length]. rewrite Hshift. lia.
  - apply Byte.eqb_false in E.
    case_decide as Heq; [cbn in Heq; congruence|].
    rewrite Hshift. lia.
Qed.

Lemma matching_positions_nonneg (needs resources : bytes) :
  0 <= matching_positions needs resources.
Proof. unfold matching_positions. lia. Qed.

Lemma matching_positions_le (needs resources : bytes) :
  matching_positions needs resources <= blen needs.
Proof.
  unfold matching_positions, blen.
  pose proof (length_filter (fun i : nat => needs !! i = resources !! i)
                (seq 0 (Nat.min (length needs) (length resources)))) as H.
  rewrite length_seq in H. lia.
Qed.

(** The loop counts the matching positions, as long as the counter fits. *)
Lemma matching_loop_counts (needs resources : bytes) (acc : Z) :
  acc + matching_positions needs resources <= UINT32_MAX ->
  matching_loop needs resources acc = Ok (acc + matching_positions needs resources).
Proof.
  revert resources acc.
  induction needs as [|n needs IH]; intros resources acc Hfit.
  - rewrite matching_positions_nil_l, Z.add_0_r. reflexivity.
  - destruct resources as [|r resources].
    + rewrite matching_positions_nil_r, Z.add_0_r. reflexivity.
    + rewrite matching_positions_cons in *. cbn [matching_loop].
      destruct (Byte.eqb n r).
      * unfold checked_add.
        pose proof (matching_positions_nonneg needs resources).
        destruct (Z.leb_spec (acc + 1) UINT32_MAX); [|lia].
        cbn [rbind]. rewrite IH by lia. f_equal. lia.
      * rewrite IH by lia. f_equal.
Qed.


Lemma calculatePriority_formula (needs resources : bytes) :
  100 * matching_positions needs resources <= UINT32_MAX ->
  blen needs <= UINT32_MAX ->
  calculatePriority needs resources = Ok (priority_formula needs resources).
Proof.
  intros Hscaled Hlen. unfold calculatePriority, priority_formula.
  pose proof (matching_positions_nonneg needs resources) as Hpos.
  rewrite (matching_loop_counts needs resources 0) by lia.
  cbn [rbind]. rewrite Z.add_0_l. unfold checked_mul.
  destruct (Z.leb_spec (matching_positions needs resources * 100) UINT32_MAX); [|lia].
  cbn [rbind]. unfold checked_div, to_uint32.
  assert (0 <= blen needs) by (unfold blen; lia).
  assert (Hd : (if blen needs >? 0 then blen needs else 1) = Z.max 1 (blen needs)).
  { destruct (Z.gtb_spec (blen needs) 0); lia. }
  rewrite Hd, Z.mod_small by (unfold UINT32_MAX in *; lia).
  destruct (Z.eqb_spec (Z.max 1 (blen needs)) 0); [lia|].
  f_equal. f_equal. lia.
Qed.





(** ** The contract, call by call *)

Section ContractProperties.

Variable checkSignatures : Z -> bytes -> bytes -> bool.
Variable asEuint32 : Z -> euint32.

Local Abbreviation exec := (execute checkSignatures asEuint32).

Ltac unfold_monad :=
  cbv [bind get modify lift require emit ret onlyAgency store_result
       FHE_checkSignatures FHE_requestDecryption].

(** [registerEncryptedRefugee], as one case analysis. *)
Lemma registerEncryptedRefugee_unfold env i l n s :
  registerEncryptedRefugee env i l n s =
  if refugeeCount s + 1 <=? UINT256_MAX
  then
    let newRefugeeId := refugeeCount s + 1 in
    Ok (tt, mkState newRefugeeId (packageCount s) (verificationCount s)
              (<[newRefugeeId := EncryptedRefugee.mk newRefugeeId i l n (block_timestamp env)]>
                 (encryptedRefugees s))
              (encryptedPackages s) (encryptedVerifications s) (decryptedResults s)
              (requestToRefugeeId s) (verificationRequestToId s)
              (emitted s ++ [RefugeeRegistered newRefugeeId (block_timestamp env)])
              (submitted s))
  else Fail (Panic 17).
Proof.
  unfold registerEncryptedRefugee, checked_add. unfold_monad.
  destruct (refugeeCount s + 1 <=? UINT256_MAX); reflexivity.
Qed.

Lemma createAidPackage_unfold env r q s :
  createAidPackage env r q s =
  if packageCount s + 1 <=? UINT256_MAX
  then
    let newPackageId := packageCount s + 1 in
    Ok (tt, mkState (refugeeCount s) newPackageId (verificationCount s)
              (encryptedRefugees s)
              (<[newPackageId := EncryptedAidPackage.mk newPackageId r q (block_timestamp env)]>
                 (encryptedPackages s))
              (encryptedVerifications s) (decryptedResults s)
              (requestToRefugeeId s) (verificationRequestToId s)
              (emitted s ++ [AidPackageCreated newPackageId (block_timestamp env)])
              (submitted s))
  else Fail (Panic 17).
Proof.
  unfold createAidPackage, checked_add. unfold_monad.
  destruct (packageCount s + 1 <=? UINT256_MAX); reflexivity.
Qed.

(** [verifyEligibility] has no failing branch. *)
Lemma verifyEligibility_unfold env refugeeId packageId s :
  verifyEligibility env refugeeId packageId s =
  let reqId := oracle_requestId env in
  Ok (tt, mkState (refugeeCount s) (packageCount s) (verificationCount s)
            (encryptedRefugees s) (encryptedPackages s)
            (encryptedVerifications s) (decryptedResults s)
            (<[reqId := refugeeId]> (requestToRefugeeId s))
            (verificationRequestToId s)
            (emitted s ++ [VerificationRequested reqId refugeeId])
            (submitted s ++
               [mkRequest reqId
                  [EncryptedRefugee.encryptedIdentity (refugee_at s refugeeId);
                   EncryptedRefugee.encryptedNeeds (refugee_at s refugeeId);
                   EncryptedAidPackage.encryptedResources (package_at s packageId)]
                  performVerification_selector])).
Proof. reflexivity. Qed.

Lemma performVerification_unfold env requestId cleartexts proof s :
  performVerification checkSignatures asEuint32 env requestId cleartexts proof s =
  if refugee_of_request s requestId =? 0 then Fail UnknownRequestId
  else if checkSignatures requestId cleartexts proof
  then
    try decoded := abi_decode_string_string_string cleartexts in
    let '(identity, needs, resources) := decoded in
    try _count := checked_add UINT256_MAX (verificationCount s) 1 in
    try eligibility := calculateEligibility identity needs in
    try priority := calculatePriority needs resources in
    Ok (tt, performVerification_post asEuint32 env s
              (refugee_of_request s requestId) eligibility priority)
  else Fail InvalidProof.
Proof.
  unfold performVerification. unfold_monad.
  destruct (refugee_of_request s requestId =? 0); [reflexivity|]. cbn [negb].
  destruct (checkSignatures requestId cleartexts proof); [|reflexivity].
  destruct (abi_decode_string_string_string cleartexts) as [[[identity needs] resources]|];
    [|reflexivity].
  cbn [rbind]. unfold checked_add.
  destruct (verificationCount s + 1 <=? UINT256_MAX); [|reflexivity].
  cbn [rbind].
  destruct (calculateEligibility identity needs); [|reflexivity].
  destruct (calculatePriority needs resources); reflexivity.
Qed.

Lemma requestVerificationResult_unfold env verificationId s :
  requestVerificationResult env verificationId s =
  if DecryptedResult.isRevealed (result_at s verificationId)
  then Fail AlreadyRevealed
  else Ok (tt, requestVerificationResult_post env s verificationId).
Proof.
  unfold requestVerificationResult. unfold_monad.
  destruct (DecryptedResult.isRevealed (result_at s verificationId)); reflexivity.
Qed.

Lemma decryptVerification_unfold env requestId cleartexts proof s :
  decryptVerification checkSignatures env requestId cleartexts proof s =
  let verificationId := verification_of_request s requestId in
  if verificationId =? 0 then Fail UnknownRequestId
  else if DecryptedResult.isRevealed (result_at s verificationId)
  then Fail AlreadyRevealed
  else if checkSignatures requestId cleartexts proof
  then
    try decoded := abi_decode_uint32_uint32 cleartexts in
    let '(eligibility, priority) := decoded in
    Ok (tt, decryptVerification_post s verificationId eligibility priority)
  else Fail InvalidProof.
Proof.
  unfold decryptVerification. unfold_monad. cbv zeta.
  destruct (verification_of_request s requestId =? 0); [reflexivity|]. cbn [negb].
  destruct (DecryptedResult.isRevealed (result_at s (verification_of_request s requestId)));
    [reflexivity|]. cbn [negb].
  destruct (checkSignatures requestId cleartexts proof); [|reflexivity].
  destruct (abi_decode_uint32_uint32 cleartexts) as [[eligibility priority]|];
    [|reflexivity].
  cbn [rbind]. unfold decryptVerification_post, result_at. cbn.
  rewrite !lookup_insert_eq. cbn. rewrite !insert_insert_eq. reflexivity.
Qed.


(** What a successful callback tells about the state it ran in. *)
Lemma performVerification_success env requestId cleartexts proof s s' :
  exec env (PerformVerification requestId cleartexts proof) s = (s', Success) ->
  exists identity needs resources eligibility priority,
    refugee_of_request s requestId <> 0
    /\ checkSignatures requestId cleartexts proof = true
    /\ abi_decode_string_string_string cleartexts = Ok (identity, needs, resources)
    /\ verificationCount s + 1 <= UINT256_MAX
    /\ calculateEligibility identity needs = Ok eligibility
    /\ calculatePriority needs resources = Ok priority
    /\ s' = performVerification_post asEuint32 env s
              (refugee_of_request s requestId) eligibility priority.
Proof.
  unfold execute. cbn [dispatch]. rewrite performVerification_unfold.
  destruct (Z.eqb_spec (refugee_of_request s requestId) 0); [discriminate|].
  destruct (checkSignatures requestId cleartexts proof) eqn:Hsig; [|discriminate].
  destruct (abi_decode_string_string_string cleartexts)
    as [[[identity needs] resources]|] eqn:Hdec; [|discriminate].
  cbn [rbind]. unfold checked_add.
  destruct (Z.leb_spec (verificationCount s + 1) UINT256_MAX); [|discriminate].
  cbn [rbind].
  destruct (calculateEligibility identity needs) as [eligibility|] eqn:He; [|discriminate].
  destruct (calculatePriority needs resources) as [priority|] eqn:Hp; [|discriminate].
  cbn [rbind]. intros [= <-].
  exists identity, needs, resources, eligibility, priority.
repeat split; assumption || reflexivity.
Qed.

Lemma decryptVerification_success env requestId cleartexts proof s s' :
  exec env (DecryptVerification requestId cleartexts proof) s = (s', Success) ->
  exists eligibility priority,
    verification_of_request s requestId <> 0
    /\ DecryptedResult.isRevealed (result_at s (verification_of_request s requestId)) = false
    /\ checkSignatures requestId cleartexts proof = true
    /\ abi_decode_uint32_uint32 cleartexts = Ok (eligibility, priority)
    /\ s' = decryptVerification_post s (verification_of_request s requestId)
              eligibility priority.
Proof.
  unfold execute. cbn [dispatch]. rewrite decryptVerification_unfold. cbv zeta.
  destruct (Z.eqb_spec (verification_of_request s requestId) 0); [discriminate|].
  destruct (DecryptedResult.isRevealed (result_at s (verification_of_request s requestId)))
    eqn:Hrev; [discriminate|].
  destruct (checkSignatures requestId cleartexts proof) eqn:Hsig; [|discriminate].
  destruct (abi_decode_uint32_uint32 cleartexts) as [[eligibility priority]|] eqn:Hdec;
    [|discriminate].
  cbn [rbind]. intros [= <-].
  exists eligibility, priority.
repeat split; assumption || reflexivity.
Qed.

(** A reverted transaction leaves the state it started from. *)
Lemma exec_reverted env c s s' e :
  exec env c s = (s', Reverted e) -> s' = s.
Proof.
  unfold execute. destruct (dispatch checkSignatures asEuint32 env c s) as [[[] s'']|e'];
    intros [= ? ?]; congruence.
Qed.

(** Neither callback writes to a correlation table. *)
Lemma callbacks_keep_correlation env requestId cleartexts proof s :
  (requestToRefugeeId (fst (exec env (PerformVerification requestId cleartexts proof) s))
     = requestToRefugeeId s
   /\ verificationRequestToId (fst (exec env (PerformVerification requestId cleartexts proof) s))
     = verificationRequestToId s)
  /\ (requestToRefugeeId (fst (exec env (DecryptVerification requestId cleartexts proof) s))
        = requestToRefugeeId s
      /\ verificationRequestToId (fst (exec env (DecryptVerification requestId cleartexts proof) s))
        = verificationRequestToId s).
Proof.
  split.
  - destruct (exec env (PerformVerification requestId cleartexts proof) s) as [s' [|e]] eqn:E.
    + apply performVerification_success in E as (? & ? & ? & ? & ? & _ & _ & _ & _ & _ & _ & ->).
      split; reflexivity.
    + apply exec_reverted in E as ->. split; reflexivity.
  - destruct (exec env (DecryptVerification requestId cleartexts proof) s) as [s' [|e]] eqn:E.
    + apply decryptVerification_success in E as (? & ? & _ & _ & _ & _ & ->).
      split; reflexivity.
    + apply exec_reverted in E as ->. split; reflexivity.
Qed.

(** ** Package association (C9) *)

(** C9: every successful [performVerification] creates the Verification
    numbered [verificationCount] with [packageId] 0 and with the refugee
    registered for the request, whatever [packageId] the originating
    [verifyEligibility] call was given: that call stores the refugee
    identifier alone. *)
Theorem performVerification_stores_package_zero
    env requestId cleartexts proof s s' :
  exec env (PerformVerification requestId cleartexts proof) s = (s', Success) ->
  verificationCount s' = verificationCount s + 1
  /\ (exists v,
        encryptedVerifications s' !! verificationCount s' = Some v
        /\ EncryptedVerification.packageId v = 0
        /\ EncryptedVerification.refugeeId v = refugee_of_request s requestId)
  /\ (forall env0 s0 refugeeId packageId,
        s = fst (exec env0 (VerifyEligibility refugeeId packageId) s0) ->
        requestId = oracle_requestId env0 ->
        getEncryptedVerification s' (verificationCount s')
        = (EncryptedVerification.encryptedEligibility (verification_at s' (verificationCount s')),
           EncryptedVerification.encryptedPriority (verification_at s' (verificationCount s')),
           refugeeId, 0, block_timestamp env)).
Proof.
  intros Hexec.
  apply performVerification_success in Hexec
    as (identity & needs & resources & eligibility & priority & _ & _ & _ & _ & _ & _ & ->).
  split; [reflexivity|]. split.
  - eexists. split; [apply lookup_insert_eq|]. split; reflexivity.
  - intros env0 s0 refugeeId packageId -> ->.
    unfold getEncryptedVerification, verification_at, performVerification_post.
    cbn [encryptedVerifications verificationCount]. rewrite lookup_insert_eq.
    cbn. unfold refugee_of_request. cbn. rewrite lookup_insert_eq. reflexivity.
Qed.

(** ** Rejected proofs (C7) *)

(** C7, amended: when [FHE.checkSignatures] rejects the proof, either
    callback is reverted and the state (Verifications, DecryptedResults
    and every other stored value) is the one before the call.  The revert
    is [InvalidProof] when the call gets as far as the check, that is,
    when the request identifier is registered and, for
    [decryptVerification], the result is not yet revealed; before that the
    earlier guard answers: [UnknownRequestId] for an identifier that is
    not registered, [AlreadyRevealed] for a result that is revealed. *)
Theorem rejected_proof_changes_nothing env requestId cleartexts proof s :
  checkSignatures requestId cleartexts proof = false ->
  (exists e,
      exec env (PerformVerification requestId cleartexts proof) s = (s, Reverted e)
      /\ (refugee_of_request s requestId = 0 -> e = UnknownRequestId)
      /\ (refugee_of_request s requestId <> 0 -> e = InvalidProof))
  /\ (exists e,
        exec env (DecryptVerification requestId cleartexts proof) s = (s, Reverted e)
        /\ (verification_of_request s requestId = 0 -> e = UnknownRequestId)
        /\ (verification_of_request s requestId <> 0 ->
            DecryptedResult.isRevealed (result_at s (verification_of_request s requestId)) = true ->
            e = AlreadyRevealed)
        /\ (verification_of_request s requestId <> 0 ->
            DecryptedResult.isRevealed (result_at s (verification_of_request s requestId)) = false ->
            e = InvalidProof)).
Proof.
  intros Hsig. split.
  - unfold execute. cbn [dispatch]. rewrite performVerification_unfold, Hsig.
    destruct (Z.eqb_spec (refugee_of_request s requestId) 0).
    + eexists. split; [reflexivity|]. split; [reflexivity|]. intros; contradiction.
    + eexists. split; [reflexivity|]. split; [intros; contradiction|reflexivity].
  - unfold execute. cbn [dispatch]. rewrite decryptVerification_unfold, Hsig. cbv zeta.
    destruct (Z.eqb_spec (verification_of_request s requestId) 0).
    + eexists. split; [reflexivity|]. split; [reflexivity|].
      split; intros; contradiction.
    + destruct (DecryptedResult.isRevealed (result_at s (verification_of_request s requestId))).
      * eexists. split; [reflexivity|]. split; [intros; contradiction|].
        split; [reflexivity|]. intros; discriminate.
      * eexists. split; [reflexivity|]. split; [intros; contradiction|].
        split; [intros; discriminate|reflexivity].
Qed.

(** ** Absent records and packages (C3) *)

(** C3, amended: [verifyEligibility] makes no existence check and never
    fails.  Whether or not the AidRecord and the AidPackage exist it
    submits one decryption request, whose handles are those stored (zero
    for an absent entry), and registers the refugee identifier under the
    request identifier it obtained. *)
Theorem verifyEligibility_always_submits env refugeeId packageId s :
  exists s',
    exec env (VerifyEligibility refugeeId packageId) s = (s', Success)
    /\ requestToRefugeeId s' = <[oracle_requestId env := refugeeId]> (requestToRefugeeId s)
    /\ submitted s' = submitted s ++
         [mkRequest (oracle_requestId env)
            [EncryptedRefugee.encryptedIdentity (refugee_at s refugeeId);
             EncryptedRefugee.encryptedNeeds (refugee_at s refugeeId);
             EncryptedAidPackage.encryptedResources (package_at s packageId)]
            performVerification_selector]
    /\ (encryptedRefugees s !! refugeeId = None ->
        refugee_at s refugeeId = EncryptedRefugee.zero)
    /\ (encryptedPackages s !! packageId = None ->
        package_at s packageId = EncryptedAidPackage.zero).
Proof.
  eexists. split; [reflexivity|]. split; [reflexivity|]. split; [reflexivity|].
  unfold refugee_at, package_at. split; intros ->; reflexivity.
Qed.

(** ** The access gate (C4) *)

(** C4, amended: [onlyAgency] makes no check.  Every function it wraps
    runs its body unchanged, a transaction's effect does not depend on the
    caller, no authorization decision is consulted, and record creation by
    any caller succeeds unless the counter is at its maximum. *)
Theorem onlyAgency_makes_no_check :
  (forall (A : Type) env (body : M A), onlyAgency env body = body)
  /\ (forall caller env c s,
        exec (mkEnv caller (block_timestamp env) (oracle_requestId env)) c s
        = exec env c s)
  /\ (forall env i l n s,
        refugeeCount s < UINT256_MAX ->
        snd (exec env (RegisterEncryptedRefugee i l n) s) = Success
        /\ encryptedRefugees (fst (exec env (RegisterEncryptedRefugee i l n) s))
             !! (refugeeCount s + 1)
           = Some (EncryptedRefugee.mk (refugeeCount s + 1) i l n (block_timestamp env))).
Proof.
  split; [reflexivity|]. split.
  - intros caller env c s. destruct c; reflexivity.
  - intros env i l n s Hlt. unfold execute. cbn [dispatch].
    rewrite registerEncryptedRefugee_unfold.
    destruct (Z.leb_spec (refugeeCount s + 1) UINT256_MAX); [|lia].
    cbn. split; [reflexivity|]. apply lookup_insert_eq.
Qed.

(** ** Reveal requests for verifications that do not exist (C10) *)


(** ** Record identifiers (C8) *)

Lemma refugees_numbered_deployed : refugees_numbered deployed.
Proof.
  unfold refugees_numbered, deployed. cbn [refugeeCount encryptedRefugees].
  split; [unfold UINT256_MAX; lia|]. split; [rewrite map_size_empty; reflexivity|]. split.
  - intros k. rewrite lookup_empty. split; [intros [r Hr]; discriminate|lia].
  - intros k r. rewrite lookup_empty. discriminate.
Qed.

(** Only [registerEncryptedRefugee] touches the record store. *)
Lemma other_calls_keep_refugees env c s :
  (forall i l n, c <> RegisterEncryptedRefugee i l n) ->
  refugeeCount (fst (exec env c s)) = refugeeCount s
  /\ encryptedRefugees (fst (exec env c s)) = encryptedRefugees s.
Proof.
  intros Hc. destruct c as [i l n|r q|r p|rid ct pf|v|rid ct pf].
  - exfalso. exact (Hc i l n eq_refl).
  - unfold execute. cbn [dispatch]. rewrite createAidPackage_unfold.
    destruct (packageCount s + 1 <=? UINT256_MAX); split; reflexivity.
  - split; reflexivity.
  - destruct (exec env (PerformVerification rid ct pf) s) as [s' [|e]] eqn:E.
    + apply performVerification_success in E
        as (? & ? & ? & ? & ? & _ & _ & _ & _ & _ & _ & ->).
      split; reflexivity.
    + apply exec_reverted in E as ->. split; reflexivity.
  - unfold execute. cbn [dispatch]. rewrite requestVerificationResult_unfold.
    destruct (DecryptedResult.isRevealed (result_at s v)); split; reflexivity.
  - destruct (exec env (DecryptVerification rid ct pf) s) as [s' [|e]] eqn:E.
    + apply decryptVerification_success in E as (? & ? & _ & _ & _ & _ & ->).
      split; reflexivity.
    + apply exec_reverted in E as ->. split; reflexivity.
Qed.

(** A record-creation call either reverts at the top of the counter or
    stores the next record. *)
Lemma register_step env i l n s :
  (refugeeCount s + 1 <= UINT256_MAX
   /\ snd (exec env (RegisterEncryptedRefugee i l n) s) = Success
   /\ refugeeCount (fst (exec env (RegisterEncryptedRefugee i l n) s)) = refugeeCount s + 1
   /\ encryptedRefugees (fst (exec env (RegisterEncryptedRefugee i l n) s))
      = <[refugeeCount s + 1 :=
            EncryptedRefugee.mk (refugeeCount s + 1) i l n (block_timestamp env)]>
          (encryptedRefugees s))
  \/ (exec env (RegisterEncryptedRefugee i l n) s = (s, Reverted (Panic 17))).
Proof.
  unfold execute. cbn [dispatch]. rewrite registerEncryptedRefugee_unfold.
  destruct (Z.leb_spec (refugeeCount s + 1) UINT256_MAX).
  - left. cbn. auto.
  - right. reflexivity.
Qed.

Lemma refugees_numbered_insert s (r : EncryptedRefugee.t) :
  refugees_numbered s ->
  refugeeCount s + 1 <= UINT256_MAX ->
  EncryptedRefugee.refugeeId r = refugeeCount s + 1 ->
  forall s',
    refugeeCount s' = refugeeCount s + 1 ->
    encryptedRefugees s' = <[refugeeCount s + 1 := r]> (encryptedRefugees s) ->
    refugees_numbered s'.
Proof.
  intros (Hrange & Hsize & Hdom & Hid) Hmax Hr s' Hcount Hmap.
  assert (Hfresh : encryptedRefugees s !! (refugeeCount s + 1) = None).
  { apply eq_None_not_Some. intros Hsome. apply Hdom in Hsome. lia. }
  unfold refugees_numbered. rewrite Hcount, Hmap.
  split; [lia|]. split; [rewrite map_size_insert_None by exact Hfresh; lia|].
  split; [intros k; split|].
  - destruct (decide (k = refugeeCount s + 1)) as [->|Hne]; [lia|].
    intros Hsome. rewrite lookup_insert_ne in Hsome by congruence. apply Hdom in Hsome. lia.
  - intros [Hlo Hhi].
    destruct (decide (k = refugeeCount s + 1)) as [->|Hne].
    + rewrite lookup_insert_eq. eauto.
    + rewrite lookup_insert_ne by congruence. apply Hdom. lia.
  - intros k r' Hk.
    destruct (decide (k = refugeeCount s + 1)) as [->|Hne].
    + rewrite lookup_insert_eq in Hk. congruence.
    + rewrite lookup_insert_ne in Hk by congruence. eauto.
Qed.

Lemma refugees_numbered_exec env c s :
  refugees_numbered s -> refugees_numbered (fst (exec env c s)).
Proof.
  intros Hinv.
  assert (Hkeep : (forall i l n, c <> RegisterEncryptedRefugee i l n) ->
                  refugees_numbered (fst (exec env c s))).
  { intros Hother.
    destruct (other_calls_keep_refugees env c s Hother) as [Hcount Hmap].
    destruct Hinv as (Hrange & Hsize & Hdom & Hid).
    unfold refugees_numbered. rewrite Hcount, Hmap. auto. }
  destruct c as [i l n| | | | |]; try (apply Hkeep; discriminate).
  destruct (register_step env i l n s) as [(Hmax & _ & Hcount & Hmap)|Hrev].
  - apply (refugees_numbered_insert s
             (EncryptedRefugee.mk (refugeeCount s + 1) i l n (block_timestamp env)));
      [exact Hinv|exact Hmax|reflexivity|exact Hcount|exact Hmap].
  - rewrite Hrev. exact Hinv.
Qed.

Lemma reachable_refugees_numbered s : reachable checkSignatures asEuint32 s -> refugees_numbered s.
Proof.
  induction 1 as [|env c s _ IH].
  - apply refugees_numbered_deployed.
  - apply refugees_numbered_exec, IH.
Qed.

(** A run of record-creation calls hands out identifiers above every
    earlier one, each once. *)
Lemma register_all_fresh calls : forall s s' ids,
  refugees_numbered s ->
  register_all checkSignatures asEuint32 calls s = (s', ids) ->
  refugees_numbered s'
  /\ refugeeCount s <= refugeeCount s'
  /\ NoDup ids
  /\ Forall (fun id => refugeeCount s < id <= refugeeCount s') ids.
Proof.
  induction calls as [|[env [[i l] n]] calls IH]; intros s s' ids Hinv Hrun.
  - cbn in Hrun. injection Hrun as <- <-.
    split; [exact Hinv|]. split; [lia|]. split; constructor.
  - cbn [register_all] in Hrun.
    pose proof (refugees_numbered_exec env (RegisterEncryptedRefugee i l n) s Hinv) as Hinv1.
    destruct (register_step env i l n s) as [(Hmax & Hok & Hcount & Hmap)|Hrev].
    + destruct (exec env (RegisterEncryptedRefugee i l n) s) as [s1 o] eqn:E.
      cbn [fst snd] in *. subst o.
      destruct (register_all checkSignatures asEuint32 calls s1) as [s2 ids'] eqn:E2.
      injection Hrun as <- <-.
      destruct (IH _ _ _ Hinv1 E2) as (Hinv2 & Hle & Hnd & Hall).
      split; [exact Hinv2|]. split; [lia|]. split.
      * constructor; [|exact Hnd].
        intros Hin. rewrite Forall_forall in Hall. apply Hall in Hin. lia.
      * constructor; [lia|].
        eapply Forall_impl; [exact Hall|]. cbn. intros; lia.
    + rewrite Hrev in Hrun. apply IH in Hrun; assumption.
Qed.

(** C8: from any state the contract can be in, a run of
    [registerEncryptedRefugee] calls assigns pairwise distinct identifiers,
    all above the identifiers assigned before (none is reused); afterwards
    [refugeeCount] is the number of records stored and a record is stored
    under an identifier exactly when it lies between 1 and
    [refugeeCount]. *)
Theorem registered_identifiers_distinct_and_counted calls s0 s ids :
  reachable checkSignatures asEuint32 s0 ->
  register_all checkSignatures asEuint32 calls s0 = (s, ids) ->
  NoDup ids
  /\ Forall (fun id => refugeeCount s0 < id <= refugeeCount s) ids
  /\ Z.of_nat (size (encryptedRefugees s)) = refugeeCount s
  /\ (forall k, 1 <= k <= refugeeCount s <-> is_Some (encryptedRefugees s !! k))
  /\ (forall k r, encryptedRefugees s !! k = Some r -> EncryptedRefugee.refugeeId r = k).
Proof.
  intros Hreach Hrun.
  apply reachable_refugees_numbered in Hreach.
  destruct (register_all_fresh calls s0 s ids Hreach Hrun)
    as ((_ & Hsize & Hdom & Hid) & _ & Hnd & Hall).
  repeat split; try assumption; apply Hdom; assumption.
Qed.

(** ** Revealed results (C2) *)

(** Once a result reads as revealed, the two reveal functions leave it
    alone: a further request is reverted, and no [decryptVerification]
    callback writes to it. *)
Lemma revealed_result_survives_reveal_calls env verificationId s :
  DecryptedResult.isRevealed (result_at s verificationId) = true ->
  exec env (RequestVerificationResult verificationId) s = (s, Reverted AlreadyRevealed)
  /\ forall requestId cleartexts proof,
       decryptedResults (fst (exec env (DecryptVerification requestId cleartexts proof) s))
         !! verificationId
       = decryptedResults s !! verificationId.
Proof.
  intros Hrev. split.
  - unfold execute. cbn [dispatch]. rewrite requestVerificationResult_unfold, Hrev.
    reflexivity.
  - intros requestId cleartexts proof.
    destruct (exec env (DecryptVerification requestId cleartexts proof) s) as [s' [|e]] eqn:E.
    + apply decryptVerification_success in E
        as (eligibility & priority & _ & Hfresh & _ & _ & ->).
      cbn. apply lookup_insert_ne. intros Heq. rewrite Heq in Hfresh. congruence.
    + apply exec_reverted in E as ->. reflexivity.
Qed.

(** [performVerification] writes the result numbered [verificationCount + 1]
    and no other: results of identifiers up to [verificationCount] are
    kept, a result stored above it is replaced. *)
Lemma performVerification_keeps_numbered_results env requestId cleartexts proof s k :
  k <= verificationCount s ->
  decryptedResults (fst (exec env (PerformVerification requestId cleartexts proof) s)) !! k
  = decryptedResults s !! k.
Proof.
  intros Hk.
  destruct (exec env (PerformVerification requestId cleartexts proof) s) as [s' [|e]] eqn:E.
  - apply performVerification_success in E
      as (? & ? & ? & ? & ? & _ & _ & _ & _ & _ & _ & ->).
    cbn. apply lookup_insert_ne. lia.
  - apply exec_reverted in E as ->. reflexivity.
Qed.

End ContractProperties.

(** ** The contract on sample transactions *)

(** C1, as written: a second delivery for a request identifier whose
    callback was processed fails [UnknownRequestId].  The callback for
    request 7 is delivered and creates verification 1; the entry for
    request 7 is still there, and the second delivery succeeds as well and
    creates verification 2 for the same refugee.  A second delivery of the
    reveal callback for request 41 is refused, but by the [isRevealed]
    guard ([AlreadyRevealed]); and once [performVerification] has written
    over the result that request 41 revealed, the second delivery for
    request 41 is accepted. *)
Lemma second_delivery_is_accepted :
  sample_execute (at_time 103 0) (PerformVerification 7 sample_strings [])
    eligibility_requested
  = (callback_delivered, Success)
  /\ verificationCount callback_delivered = 1
  /\ refugee_of_request callback_delivered 7 = 1
  /\ snd (sample_execute (at_time 104 0) (PerformVerification 7 sample_strings [])
            callback_delivered)
     = Success
  /\ snd (sample_execute (at_time 104 0) (PerformVerification 7 sample_strings [])
            callback_delivered)
     <> Reverted UnknownRequestId
  /\ verificationCount
       (fst (sample_execute (at_time 104 0) (PerformVerification 7 sample_strings [])
               callback_delivered))
     = 2
  /\ sample_execute (at_time 102 0) (DecryptVerification 41 other_scores [])
       revealed_early
     = (revealed_early, Reverted AlreadyRevealed)
  /\ snd (sample_execute (at_time 102 0) (DecryptVerification 41 other_scores [])
            revealed_early)
     <> Reverted UnknownRequestId
  /\ verification_of_request verified_later 41 = 1
  /\ snd (sample_execute (at_time 105 0) (DecryptVerification 41 other_scores [])
            verified_later)
     = Success
  /\ getDecryptedResult
       (fst (sample_execute (at_time 105 0) (DecryptVerification 41 other_scores [])
               verified_later)) 1
     = (7, 9, true).
Proof. vm_compute. repeat split; discriminate. Qed.

(** C2 at the failing input: the result of verification 1 is revealed as
    (7, 9) before the verification exists; creating the verification then
    replaces the revealed values and clears [isRevealed], and a later
    reveal sets it a second time. *)
Theorem revealed_result_is_overwritten :
  getDecryptedResult revealed_early 1 = (7, 9, true)
  /\ sample_execute (at_time 104 0) (PerformVerification 42 sample_strings [])
       (sample_transact
          [ (at_time 102 0, RegisterEncryptedRefugee 11 12 13);
            (at_time 103 42, VerifyEligibility 1 0) ]
          revealed_early)
     = (verified_later, Success)
  /\ getDecryptedResult verified_later 1 = (100, 100, false)
  /\ getDecryptedResult revealed_again 1 = (100, 100, true).
Proof. vm_compute. repeat split. Qed.

(** C3, as written: with no record 5 and no package 9 stored,
    [verifyEligibility 5 9] fails and submits nothing.  It succeeds,
    submits a request for three zero handles and registers refugee 5 under
    the request identifier. *)
Lemma verifyEligibility_accepts_absent_entries :
  encryptedRefugees deployed !! 5 = None
  /\ encryptedPackages deployed !! 9 = None
  /\ snd (sample_execute (at_time 100 7) (VerifyEligibility 5 9) deployed) = Success
  /\ submitted (fst (sample_execute (at_time 100 7) (VerifyEligibility 5 9) deployed))
     = [mkRequest 7 [0; 0; 0] performVerification_selector]
  /\ requestToRefugeeId (fst (sample_execute (at_time 100 7) (VerifyEligibility 5 9) deployed))
       !! 7
     = Some 5.
Proof. vm_compute. repeat split. Qed.

(** C4, as written: under a policy that denies every caller, every
    [onlyAgency] function fails without a state change.  Record creation
    succeeds and stores the record. *)
Lemma denied_caller_is_served :
  ~ gate_enforced kms_accepts_all handle_of_value (fun _ _ => false).
Proof.
  intros Hgate.
  destruct (Hgate (at_time 100 0) (RegisterEncryptedRefugee 11 12 13) deployed
              eq_refl eq_refl) as [e He].
  vm_compute in He. discriminate.
Qed.


Lemma performVerification_stores_package_zero_witness :
  sample_execute (at_time 103 0) (PerformVerification 7 sample_strings [])
    eligibility_requested
  = (callback_delivered, Success)
  /\ EncryptedVerification.packageId (verification_at callback_delivered 1) = 0
  /\ getEncryptedVerification callback_delivered 1 = (1100, 1100, 1, 0, 103).
Proof.
  assert (Hexec : sample_execute (at_time 103 0) (PerformVerification 7 sample_strings [])
                    eligibility_requested
                  = (callback_delivered, Success)) by (vm_compute; reflexivity).
  split; [exact Hexec|].
  destruct (performVerification_stores_package_zero kms_accepts_all handle_of_value
              (at_time 103 0) 7 sample_strings [] eligibility_requested callback_delivered
              Hexec) as (Hcount & (v & Hv & Hpkg & _) & Hlink).
  split.
  - unfold verification_at.
    replace 1 with (verificationCount callback_delivered) by (vm_compute; reflexivity).
    rewrite Hv. exact Hpkg.
  - replace 1 with (verificationCount callback_delivered) at 1 by (vm_compute; reflexivity).
    rewrite (Hlink (at_time 102 7)
               (sample_transact
                  [ (at_time 100 0, RegisterEncryptedRefugee 11 12 13);
                    (at_time 101 0, CreateAidPackage 21 22) ] deployed)
               1 1); [|vm_compute; reflexivity|reflexivity].
    vm_compute. reflexivity.
Defined.

(** C7, as written: a callback whose proof is rejected fails
    [InvalidProof].  The result of verification 1 is revealed through
    request 43; a further delivery for request 43 with an empty proof,
    which the signature check rejects, fails [AlreadyRevealed], and a
    delivery with a rejected proof for request 99, which was never
    submitted, fails [UnknownRequestId].  The state is unchanged in both
    cases. *)
Lemma rejected_proof_meets_earlier_guard :
  getDecryptedResult revealed_with_signed_proofs 1 = (100, 100, true)
  /\ verification_of_request revealed_with_signed_proofs 43 = 1
  /\ kms_accepts_signed 43 sample_scores [] = false
  /\ execute kms_accepts_signed handle_of_value (at_time 105 0)
       (DecryptVerification 43 sample_scores []) revealed_with_signed_proofs
     = (revealed_with_signed_proofs, Reverted AlreadyRevealed)
  /\ AlreadyRevealed <> InvalidProof
  /\ kms_accepts_signed 99 sample_strings [] = false
  /\ execute kms_accepts_signed handle_of_value (at_time 105 0)
       (PerformVerification 99 sample_strings []) revealed_with_signed_proofs
     = (revealed_with_signed_proofs, Reverted UnknownRequestId)
  /\ UnknownRequestId <> InvalidProof.
Proof. vm_compute. repeat split; discriminate. Qed.

Lemma rejected_proof_changes_nothing_witness :
  kms_rejects_all 7 sample_strings [] = false
  /\ execute kms_rejects_all handle_of_value (at_time 103 0)
       (PerformVerification 7 sample_strings []) eligibility_requested
     = (eligibility_requested, Reverted InvalidProof).
Proof.
  split; [reflexivity|].
  destruct (rejected_proof_changes_nothing kms_rejects_all handle_of_value
              (at_time 103 0) 7 sample_strings [] eligibility_requested eq_refl)
    as [(e & Hexec & _ & Hkind) _].
  rewrite Hexec. f_equal. f_equal. apply Hkind. vm_compute. discriminate.
Defined.

Lemma registered_identifiers_distinct_and_counted_witness :
  let calls := [ (at_time 100 0, (11, 12, 13));
                 (at_time 101 0, (21, 22, 23));
                 (at_time 102 0, (31, 32, 33)) ] in
  let s := fst (register_all kms_accepts_all handle_of_value calls deployed) in
  let ids := snd (register_all kms_accepts_all handle_of_value calls deployed) in
  ids = [1; 2; 3]
  /\ NoDup ids
  /\ Z.of_nat (size (encryptedRefugees s)) = refugeeCount s.
Proof.
  intros calls s ids.
  destruct (registered_identifiers_distinct_and_counted kms_accepts_all handle_of_value
              calls deployed s ids) as (Hnd & _ & Hsize & _).
  - apply reachable_deployed.
  - apply surjective_pairing.
  - split; [vm_compute; reflexivity|]. split; [exact Hnd|exact Hsize].
Defined.


(** ** Record status in the web client (C5) *)

Import Frontend.

Lemma get_set_field (k : string) (v : JSON) (fields : list (string * JSON)) :
  get_field k (set_field k v fields) = Some v.
Proof.
  induction fields as [|[k' v'] fields IH]; cbn [set_field get_field].
  - rewrite String.eqb_refl. reflexivity.
  - destruct (String.eqb k' k) eqn:E; cbn [get_field].
    + rewrite String.eqb_refl. reflexivity.
    + rewrite E. exact IH.
Qed.

Lemma is_string_spec (v : JSON) (literal : string) :
  is_string v literal = true <-> v = JStr literal.
Proof.
  destruct v as [|b|n|s|items|fields]; cbn [is_string];
    try (split; [discriminate|intros [=]]).
  rewrite String.eqb_eq. split; [intros ->; reflexivity|intros [=]; assumption].
Qed.

Lemma shown_status_written (newStatus : string) (recordData : JSON) :
  newStatus <> ""%string ->
  shown_status (JObj (set_field "status" (JStr newStatus) (spread recordData)))
  = JStr newStatus.
Proof.
  intros Hne. unfold shown_status. cbn [spread]. rewrite get_set_field.
  cbn [truthy default].
  destruct (String.eqb_spec newStatus ""); [contradiction|reflexivity].
Qed.

(** C5, as written: [approveRecord] succeeds only from Pending,
    [distributeRecord] only from Approved, and nothing succeeds from
    Rejected.  On a record stored as distributed [approveRecord] succeeds
    and the record then shows approved; on a record stored as rejected
    [distributeRecord] succeeds and the record then shows distributed. *)
Lemma status_is_overwritten_from_any_state :
  (shown_status <$> sample_store !! record_key "r1") = Some (JStr "distributed")
  /\ (exists store',
        approveRecord true true sample_store "r1" = ActionDone store'
        /\ (shown_status <$> store' !! record_key "r1") = Some (JStr "approved"))
  /\ (shown_status <$> sample_store !! record_key "r2") = Some (JStr "rejected")
  /\ (exists store',
        distributeRecord true true sample_store "r2" = ActionDone store'
        /\ (shown_status <$> store' !! record_key "r2") = Some (JStr "distributed")).
Proof.
  split; [vm_compute; reflexivity|]. split.
  - eexists. split; [reflexivity|]. vm_compute. reflexivity.
  - split; [vm_compute; reflexivity|].
    eexists. split; [reflexivity|]. vm_compute. reflexivity.
Qed.

(** C5, amended: [approveRecord] writes status "approved" and
    [distributeRecord] writes status "distributed" over whatever status
    the stored record has; neither reads the status.  Without a connected
    wallet they do nothing; with a wallet but no signer contract they fail
    with "Failed to get contract with signer"; when [getData] returns a
    value of length 0 for the record's key they fail with "Record not
    found"; they write only when a wallet, a signer contract and a stored
    record are there, and then only the record's key changes.  The
    restriction to Pending and to Approved is made by the record list
    alone, which shows the Approve button exactly on a record shown as
    pending and the Distribute button exactly on a record shown as
    approved (none on rejected or distributed records). *)
Theorem record_actions_overwrite_status (store : Store) (recordId : string) :
  (forall recordData,
      store !! record_key recordId = Some recordData ->
      approveRecord true true store recordId
      = ActionDone (<[record_key recordId :=
                        JObj (set_field "status" (JStr "approved") (spread recordData))]> store)
      /\ shown_status (JObj (set_field "status" (JStr "approved") (spread recordData)))
         = JStr "approved"
      /\ distributeRecord true true store recordId
         = ActionDone (<[record_key recordId :=
                           JObj (set_field "status" (JStr "distributed") (spread recordData))]> store)
      /\ shown_status (JObj (set_field "status" (JStr "distributed") (spread recordData)))
         = JStr "distributed")
  /\ (store !! record_key recordId = None ->
      approveRecord true true store recordId
      = ActionError "Verification failed: Record not found"
      /\ distributeRecord true true store recordId
         = ActionError "Distribution failed: Record not found")
  /\ (approveRecord true false store recordId
      = ActionError "Verification failed: Failed to get contract with signer"
      /\ distributeRecord true false store recordId
         = ActionError "Distribution failed: Failed to get contract with signer")
  /\ (forall signer,
        approveRecord false signer store recordId = NoWallet
        /\ distributeRecord false signer store recordId = NoWallet)
  /\ (forall provider signer store',
        approveRecord provider signer store recordId = ActionDone store'
        \/ distributeRecord provider signer store recordId = ActionDone store' ->
        provider = true /\ signer = true
        /\ is_Some (store !! record_key recordId)
        /\ forall key, key <> record_key recordId -> store' !! key = store !! key)
  /\ (forall status, In Approve (row_buttons status) <-> status = JStr "pending")
  /\ (forall status, In Distribute (row_buttons status) <-> status = JStr "approved").
Proof.
  split; [|split; [|split; [|split; [|split; [|split]]]]].
  - intros recordData Hstored.
    unfold approveRecord, distributeRecord, write_status. cbn [negb]. rewrite Hstored.
    split; [reflexivity|]. split; [apply shown_status_written; discriminate|].
    split; [reflexivity|]. apply shown_status_written; discriminate.
  - intros Hnone.
    unfold approveRecord, distributeRecord, write_status. cbn [negb]. rewrite Hnone.
    split; reflexivity.
  - split; reflexivity.
  - intros signer. split; reflexivity.
  - intros provider signer store'.
    unfold approveRecord, distributeRecord, write_status.
    destruct provider; cbn [negb]; [|intros [H|H]; discriminate].
    destruct signer; cbn [negb]; [|intros [H|H]; discriminate].
    destruct (store !! record_key recordId) as [recordData|] eqn:Hstored;
      [|intros [H|H]; discriminate].
    intros Hdone. split; [reflexivity|]. split; [reflexivity|].
    split; [eexists; reflexivity|].
    intros key Hkey.
    destruct Hdone as [[= <-]|[= <-]]; unfold Store;
      rewrite lookup_insert_ne by congruence; reflexivity.
  - intros status. rewrite <- is_string_spec. unfold row_buttons.
    destruct (is_string status "pending"), (is_string status "approved"); cbn;
      split; intros H; try discriminate; intuition discriminate.
  - intros status. rewrite <- is_string_spec. unfold row_buttons.
    destruct (is_string status "pending"), (is_string status "approved"); cbn;
      split; intros H; try discriminate; intuition discriminate.
Qed.

(** * Further properties of the ledger *)

Section LedgerProperties.

Variable checkSignatures : Z -> bytes -> bytes -> bool.
Variable asEuint32 : Z -> euint32.

Local Abbreviation exec := (execute checkSignatures asEuint32).
Local Abbreviation step_of := (committed checkSignatures asEuint32).
Local Abbreviation reach := (reachable checkSignatures asEuint32).
Local Abbreviation after := (transact checkSignatures asEuint32).

(** ** Transactions either revert or commit *)

Lemma exec_outcome env c s :
  (exists e, exec env c s = (s, Reverted e))
  \/ (exists s', exec env c s = (s', Success) /\ step_of env s c s').
Proof.
  destruct c as [i l n|r q|r p|rid ct pf|v|rid ct pf].
  - unfold execute. cbn [dispatch]. rewrite registerEncryptedRefugee_unfold.
    destruct (Z.leb_spec (refugeeCount s + 1) UINT256_MAX).
    + right. eexists. split; [reflexivity|]. apply committed_register. assumption.
    + left. eexists. reflexivity.
  - unfold execute. cbn [dispatch]. rewrite createAidPackage_unfold.
    destruct (Z.leb_spec (packageCount s + 1) UINT256_MAX).
    + right. eexists. split; [reflexivity|]. apply committed_package. assumption.
    + left. eexists. reflexivity.
  - right. eexists. split; [reflexivity|]. apply committed_verify.
  - destruct (exec env (PerformVerification rid ct pf) s) as [s' [|e]] eqn:E.
    + right. exists s'. split; [reflexivity|].
      apply performVerification_success in E
        as (identity & needs & resources & eligibility & priority
            & Hreg & Hsig & Hdec & Hmax & He & Hp & ->).
      eapply committed_perform; eassumption.
    + left. exists e. apply exec_reverted in E as Hs. subst s'. reflexivity.
  - unfold execute. cbn [dispatch]. rewrite requestVerificationResult_unfold.
    destruct (DecryptedResult.isRevealed (result_at s v)) eqn:Hrev.
    + left. eexists. reflexivity.
    + right. eexists. split; [reflexivity|]. apply committed_request. assumption.
  - destruct (exec env (DecryptVerification rid ct pf) s) as [s' [|e]] eqn:E.
    + right. exists s'. split; [reflexivity|].
      apply decryptVerification_success in E
        as (eligibility & priority & Hreg & Hrev & Hsig & Hdec & ->).
      eapply committed_decrypt; eassumption.
    + left. exists e. apply exec_reverted in E as Hs. subst s'. reflexivity.
Qed.

Lemma exec_success_committed env c s s' :
  exec env c s = (s', Success) -> step_of env s c s'.
Proof.
  intros Hexec. destruct (exec_outcome env c s) as [[e He]|[s'' [He Hstep]]].
  - rewrite He in Hexec. discriminate.
  - rewrite He in Hexec. injection Hexec as <-. exact Hstep.
Qed.

(** A property of the deployed contract that every committed transaction
    keeps holds in every state the contract can be in. *)
Lemma reachable_invariant (P : State -> Prop) :
  P deployed ->
  (forall env c s s', P s -> step_of env s c s' -> P s') ->
  forall s, reach s -> P s.
Proof.
  intros Hinit Hstep s Hreach. induction Hreach as [|env c s _ IH]; [exact Hinit|].
  destruct (exec_outcome env c s) as [[e He]|[s' [He Hc]]]; rewrite He; cbn [fst].
  - exact IH.
  - exact (Hstep env c s s' IH Hc).
Qed.

Lemma after_cons env c txs s :
  after ((env, c) :: txs) s = after txs (fst (exec env c s)).
Proof. reflexivity. Qed.

Lemma after_invariant (P : State -> Prop) :
  (forall env c s s', P s -> step_of env s c s' -> P s') ->
  forall txs s, P s -> P (after txs s).
Proof.
  intros Hstep txs. induction txs as [|[env c] txs IH]; intros s Hs; [exact Hs|].
  rewrite after_cons. apply IH.
  destruct (exec_outcome env c s) as [[e He]|[s' [He Hc]]]; rewrite He; cbn [fst].
  - exact Hs.
  - exact (Hstep env c s s' Hs Hc).
Qed.

Lemma after_reachable txs s : reach s -> reach (after txs s).
Proof.
  revert s. induction txs as [|[env c] txs IH]; intros s Hs; [exact Hs|].
  rewrite after_cons. apply IH. apply reachable_execute. exact Hs.
Qed.

(** Inserting under the next number keeps a numbered map numbered. *)
Lemma numbered_insert {V} (m : gmap Z V) (count : Z) (v : V) :
  0 <= count ->
  Z.of_nat (size m) = count ->
  (forall k, is_Some (m !! k) <-> 1 <= k <= count) ->
  m !! (count + 1) = None
  /\ Z.of_nat (size (<[count + 1 := v]> m)) = count + 1
  /\ (forall k, is_Some (<[count + 1 := v]> m !! k) <-> 1 <= k <= count + 1).
Proof.
  intros Hpos Hsize Hdom.
  assert (Hfresh : m !! (count + 1) = None).
  { apply eq_None_not_Some. intros Hsome. apply Hdom in Hsome. lia. }
  split; [exact Hfresh|]. split.
  - rewrite map_size_insert_None by exact Hfresh. lia.
  - intros k. destruct (decide (k = count + 1)) as [->|Hne].
    + rewrite lookup_insert_eq. split; [lia|eauto].
    + rewrite lookup_insert_ne by congruence. rewrite Hdom. lia.
Qed.

(** ** Ranges of the values the callbacks store *)


Lemma matching_loop_result (needs resources : bytes) : forall acc m,
  matching_loop needs resources acc = Ok m ->
  m = acc + matching_positions needs resources.
Proof.
  revert resources. induction needs as [|n needs IH]; intros resources acc m.
  - cbn. rewrite matching_positions_nil_l. intros [= <-]. lia.
  - destruct resources as [|r resources].
    + cbn [matching_loop]. rewrite matching_positions_nil_r. intros [= <-]. lia.
    + cbn [matching_loop]. rewrite matching_positions_cons.
      destruct (Byte.eqb n r).
      * unfold checked_add. destruct (acc + 1 <=? UINT32_MAX); [|discriminate].
        cbn [rbind]. intros Hloop. apply IH in Hloop. lia.
      * intros Hloop. apply IH in Hloop. lia.
Qed.

(** What [calculatePriority] returns, when it returns. *)
Lemma calculatePriority_result (needs resources : bytes) (p : Z) :
  calculatePriority needs resources = Ok p ->
  100 * matching_positions needs resources <= UINT32_MAX
  /\ to_uint32 (Z.max 1 (blen needs)) <> 0
  /\ p = 100 * matching_positions needs resources / to_uint32 (Z.max 1 (blen needs)).
Proof.
  unfold calculatePriority.
  destruct (matching_loop needs resources 0) as [m|] eqn:Hloop; [|discriminate].
  apply matching_loop_result in Hloop. rewrite Z.add_0_l in Hloop. subst m.
  cbn [rbind]. unfold checked_mul.
  destruct (Z.leb_spec (matching_positions needs resources * 100) UINT32_MAX);
    [|discriminate].
  cbn [rbind]. unfold checked_div.
  assert (Hd : (if blen needs >? 0 then blen needs else 1) = Z.max 1 (blen needs)).
  { assert (0 <= blen needs) by (unfold blen; lia).
    destruct (Z.gtb_spec (blen needs) 0); lia. }
  rewrite Hd.
  destruct (Z.eqb_spec (to_uint32 (Z.max 1 (blen needs))) 0); [discriminate|].
  intros [= <-]. split; [lia|]. split; [assumption|]. f_equal. lia.
Qed.




(** ** The invariants, step by step *)

Lemma packages_numbered_step env c s s' :
  packages_numbered s -> step_of env s c s' -> packages_numbered s'.
Proof.
  intros Hinv Hstep. destruct Hstep; try exact Hinv.
  destruct Hinv as (Hrange & Hsize & Hdom & Hid).
  destruct (numbered_insert (encryptedPackages s) (packageCount s)
              (EncryptedAidPackage.mk (packageCount s + 1) r q (block_timestamp env)))
    as (Hfresh & Hsize' & Hdom'); [lia|assumption|assumption|].
  unfold packages_numbered, createAidPackage_post. cbn [packageCount encryptedPackages].
  split; [lia|]. split; [exact Hsize'|]. split; [exact Hdom'|].
  intros k p Hk. destruct (decide (k = packageCount s + 1)) as [->|Hne].
  - rewrite lookup_insert_eq in Hk. injection Hk as <-. reflexivity.
  - rewrite lookup_insert_ne in Hk by congruence. eauto.
Qed.

Lemma verifications_numbered_step env c s s' :
  verifications_numbered s -> step_of env s c s' -> verifications_numbered s'.
Proof.
  intros Hinv Hstep. destruct Hstep; try exact Hinv.
  - destruct Hinv as (Hrange & Hsize & Hdom & Hid).
    destruct (numbered_insert (encryptedVerifications s) (verificationCount s)
                (EncryptedVerification.mk (verificationCount s + 1) (asEuint32 eligibility)
                   (asEuint32 priority) (refugee_of_request s requestId) 0
                   (block_timestamp env)))
      as (Hfresh & Hsize' & Hdom'); [lia|assumption|assumption|].
    unfold verifications_numbered, performVerification_post.
    cbn [verificationCount encryptedVerifications decryptedResults].
    split; [lia|]. split; [exact Hsize'|]. split; [exact Hdom'|].
    intros k v Hk. destruct (decide (k = verificationCount s + 1)) as [->|Hne].
    + rewrite lookup_insert_eq in Hk. injection Hk as <-. cbn.
      rewrite lookup_insert_eq. eauto.
    + rewrite lookup_insert_ne in Hk by congruence.
      rewrite lookup_insert_ne by congruence. eauto.
  - destruct Hinv as (Hrange & Hsize & Hdom & Hid).
    unfold verifications_numbered, decryptVerification_post.
    cbn [verificationCount encryptedVerifications decryptedResults].
    split; [assumption|]. split; [assumption|]. split; [assumption|].
    intros k v Hk. destruct (Hid k v Hk) as (? & ? & ? & Hres).
    repeat split; try assumption.
    destruct (decide (k = verification_of_request s requestId)) as [->|Hne].
    + rewrite lookup_insert_eq. eauto.
    + rewrite lookup_insert_ne by congruence. exact Hres.
Qed.

Lemma requests_issued_step env c s s' :
  requests_issued s -> step_of env s c s' -> requests_issued s'.
Proof.
  intros Hinv Hstep. destruct Hstep; try exact Hinv.
  - destruct Hinv as [Hel Hrv].
    unfold requests_issued, verifyEligibility_post.
    cbn [requestToRefugeeId verificationRequestToId submitted]. split.
    + intros k Hk. destruct (decide (k = oracle_requestId env)) as [->|Hne].
      * eexists. apply in_or_app. right. left. reflexivity.
      * rewrite lookup_insert_ne in Hk by congruence.
        destruct (Hel k Hk) as [cts Hin]. exists cts. apply in_or_app. left. exact Hin.
    + intros k Hk. destruct (Hrv k Hk) as [cts Hin].
      exists cts. apply in_or_app. left. exact Hin.
  - destruct Hinv as [Hel Hrv].
    unfold requests_issued, requestVerificationResult_post.
    cbn [requestToRefugeeId verificationRequestToId submitted]. split.
    + intros k Hk. destruct (Hel k Hk) as [cts Hin].
      exists cts. apply in_or_app. left. exact Hin.
    + intros k Hk. destruct (decide (k = oracle_requestId env)) as [->|Hne].
      * eexists. apply in_or_app. right. left. reflexivity.
      * rewrite lookup_insert_ne in Hk by congruence.
        destruct (Hrv k Hk) as [cts Hin]. exists cts. apply in_or_app. left. exact Hin.
Qed.


Lemma count_of_snoc {A} (p : A -> bool) (l : list A) (x : A) :
  count_of p (l ++ [x]) = count_of p l + (if p x then 1 else 0).
Proof.
  unfold count_of. rewrite List.filter_app, length_app. cbn [List.filter].
  destruct (p x); cbn [length]; lia.
Qed.

Lemma log_matches_counters_step env c s s' :
  log_matches_counters s -> step_of env s c s' -> log_matches_counters s'.
Proof.
  intros (Hr & Hp & Hv & Hq) Hstep.
  destruct Hstep; unfold log_matches_counters;
    cbn [registerEncryptedRefugee_post createAidPackage_post verifyEligibility_post
         performVerification_post requestVerificationResult_post decryptVerification_post
         emitted submitted refugeeCount packageCount verificationCount];
    rewrite ?count_of_snoc; cbn; lia.
Qed.

Lemma committed_exec env c s s' :
  step_of env s c s' -> exec env c s = (s', Success).
Proof.
  intros Hstep. destruct Hstep as [i l n Hmax|r q Hmax|r p
                                  |rid ct pf i n r e p Hreg Hsig Hdec Hmax He Hp
                                  |v Hrev|rid ct pf e p Hreg Hrev Hsig Hdec];
    unfold execute; cbn [dispatch].
  - rewrite registerEncryptedRefugee_unfold.
    destruct (Z.leb_spec (refugeeCount s + 1) UINT256_MAX); [reflexivity|lia].
  - rewrite createAidPackage_unfold.
    destruct (Z.leb_spec (packageCount s + 1) UINT256_MAX); [reflexivity|lia].
  - reflexivity.
  - rewrite performVerification_unfold.
    destruct (Z.eqb_spec (refugee_of_request s rid) 0); [contradiction|].
    rewrite Hsig, Hdec. cbn [rbind]. unfold checked_add.
    destruct (Z.leb_spec (verificationCount s + 1) UINT256_MAX); [|lia].
    cbn [rbind]. rewrite He, Hp. reflexivity.
  - rewrite requestVerificationResult_unfold, Hrev. reflexivity.
  - rewrite decryptVerification_unfold. cbv zeta.
    destruct (Z.eqb_spec (verification_of_request s rid) 0); [contradiction|].
    rewrite Hrev, Hsig, Hdec. reflexivity.
Qed.

Lemma refugees_numbered_step env c s s' :
  refugees_numbered s -> step_of env s c s' -> refugees_numbered s'.
Proof.
  intros Hinv Hstep. apply committed_exec in Hstep.
  pose proof (refugees_numbered_exec checkSignatures asEuint32 env c s Hinv) as Hnext.
  rewrite Hstep in Hnext. exact Hnext.
Qed.

(** ** Numbering of packages and verifications *)

Lemma packages_numbered_deployed : packages_numbered deployed.
Proof.
  unfold packages_numbered, deployed. cbn [packageCount encryptedPackages].
  split; [unfold UINT256_MAX; lia|]. split; [rewrite map_size_empty; reflexivity|]. split.
  - intros k. rewrite lookup_empty. split; [intros [p Hp]; discriminate|lia].
  - intros k p. rewrite lookup_empty. discriminate.
Qed.

(** X1: in every state the contract can be in, [packageCount] is the number
    of packages stored, a package is stored under an identifier exactly
    when it lies between 1 and [packageCount], and each stored package
    carries its own identifier. *)
Theorem packages_are_numbered s :
  reach s -> packages_numbered s.
Proof.
  apply reachable_invariant.
  - apply packages_numbered_deployed.
  - intros env c s0 s1. apply packages_numbered_step.
Qed.

Lemma verifications_numbered_deployed : verifications_numbered deployed.
Proof.
  unfold verifications_numbered, deployed.
  cbn [verificationCount encryptedVerifications decryptedResults].
  split; [unfold UINT256_MAX; lia|]. split; [rewrite map_size_empty; reflexivity|]. split.
  - intros k. rewrite lookup_empty. split; [intros [p Hp]; discriminate|lia].
  - intros k p. rewrite lookup_empty. discriminate.
Qed.

(** X2: in every state the contract can be in, verifications are stored
    exactly under the identifiers 1 to [verificationCount]; each carries
    its own identifier, package 0 and a refugee identifier other than 0,
    and a DecryptedResult is stored under the same identifier. *)
Theorem verifications_are_numbered s :
  reach s -> verifications_numbered s.
Proof.
  apply reachable_invariant.
  - apply verifications_numbered_deployed.
  - intros env c s0 s1. apply verifications_numbered_step.
Qed.

(** ** Stored entries are written once *)

Lemma numbered_all_reachable s :
  reach s -> refugees_numbered s /\ packages_numbered s /\ verifications_numbered s.
Proof.
  apply (reachable_invariant
           (fun s => refugees_numbered s /\ packages_numbered s /\ verifications_numbered s)).
  - split; [apply refugees_numbered_deployed|]. split.
    + apply packages_numbered_deployed.
    + apply verifications_numbered_deployed.
  - intros env c s0 s1 (Hr & Hp & Hv) Hstep.
    split; [|split];
      [eapply refugees_numbered_step|eapply packages_numbered_step
      |eapply verifications_numbered_step]; eassumption.
Qed.

(** One committed transaction changes no record, package or verification
    that is already stored, provided the stores are numbered. *)
Lemma stored_entries_kept_step env c s s' :
  refugees_numbered s -> packages_numbered s -> verifications_numbered s ->
  step_of env s c s' ->
  (forall k v, encryptedRefugees s !! k = Some v -> encryptedRefugees s' !! k = Some v)
  /\ (forall k v, encryptedPackages s !! k = Some v -> encryptedPackages s' !! k = Some v)
  /\ (forall k v, encryptedVerifications s !! k = Some v ->
        encryptedVerifications s' !! k = Some v).
Proof.
  intros (_ & _ & Hrd & _) (_ & _ & Hpd & _) (_ & _ & Hvd & _) Hstep.
  destruct Hstep; (split; [|split]); intros k v Hk; try exact Hk; cbn.
  - rewrite lookup_insert_ne; [exact Hk|]. intros <-.
    assert (is_Some (encryptedRefugees s !! (refugeeCount s + 1))) as Hs by eauto.
    apply Hrd in Hs. lia.
  - rewrite lookup_insert_ne; [exact Hk|]. intros <-.
    assert (is_Some (encryptedPackages s !! (packageCount s + 1))) as Hs by eauto.
    apply Hpd in Hs. lia.
  - rewrite lookup_insert_ne; [exact Hk|]. intros <-.
    assert (is_Some (encryptedVerifications s !! (verificationCount s + 1))) as Hs by eauto.
    apply Hvd in Hs. lia.
Qed.

Lemma stored_entries_kept s txs :
  reach s ->
  (forall k v, encryptedRefugees s !! k = Some v ->
     encryptedRefugees (after txs s) !! k = Some v)
  /\ (forall k v, encryptedPackages s !! k = Some v ->
        encryptedPackages (after txs s) !! k = Some v)
  /\ (forall k v, encryptedVerifications s !! k = Some v ->
        encryptedVerifications (after txs s) !! k = Some v).
Proof.
  intros Hreach.
  pose proof (numbered_all_reachable s Hreach) as Hnum.
  enough (Hgoal :
    (refugees_numbered (after txs s) /\ packages_numbered (after txs s)
     /\ verifications_numbered (after txs s))
    /\ (forall k v, encryptedRefugees s !! k = Some v ->
          encryptedRefugees (after txs s) !! k = Some v)
    /\ (forall k v, encryptedPackages s !! k = Some v ->
          encryptedPackages (after txs s) !! k = Some v)
    /\ (forall k v, encryptedVerifications s !! k = Some v ->
          encryptedVerifications (after txs s) !! k = Some v)) by apply Hgoal.
  apply (after_invariant
    (fun s' =>
       (refugees_numbered s' /\ packages_numbered s' /\ verifications_numbered s')
       /\ (forall k v, encryptedRefugees s !! k = Some v -> encryptedRefugees s' !! k = Some v)
       /\ (forall k v, encryptedPackages s !! k = Some v -> encryptedPackages s' !! k = Some v)
       /\ (forall k v, encryptedVerifications s !! k = Some v ->
             encryptedVerifications s' !! k = Some v))).
  - intros env c s0 s1 ((Hr & Hp & Hv) & Kr & Kp & Kv) Hstep.
    destruct (stored_entries_kept_step env c s0 s1 Hr Hp Hv Hstep) as (Sr & Sp & Sv).
    split.
    + split; [|split];
        [eapply refugees_numbered_step|eapply packages_numbered_step
        |eapply verifications_numbered_step]; eassumption.
    + split; [|split]; intros k v Hk; [apply Sr, Kr|apply Sp, Kp|apply Sv, Kv]; exact Hk.
  - split; [exact Hnum|]. repeat split; auto.
Qed.

(** X3: whatever transactions follow, a record, package or verification
    that is stored stays stored under its identifier with the same
    content: the contract has no operation that rewrites one. *)
Theorem stored_entries_are_written_once s txs k :
  reachable checkSignatures asEuint32 s ->
  (forall v, encryptedRefugees s !! k = Some v ->
     encryptedRefugees (transact checkSignatures asEuint32 txs s) !! k = Some v)
  /\ (forall v, encryptedPackages s !! k = Some v ->
        encryptedPackages (transact checkSignatures asEuint32 txs s) !! k = Some v)
  /\ (forall v, encryptedVerifications s !! k = Some v ->
        encryptedVerifications (transact checkSignatures asEuint32 txs s) !! k = Some v).
Proof.
  intros Hreach. destruct (stored_entries_kept s txs Hreach) as (Hr & Hp & Hv).
  repeat split; intros v; [apply Hr|apply Hp|apply Hv].
Qed.

(** X4: what a successful registration stored can be read back through
    the view functions after any further transactions: the three handles
    and the block time of a record under the identifier it was given, and
    likewise the two handles and the block time of a package. *)
Theorem registered_entries_read_back s env txs :
  reach s ->
  (forall i l n s1,
      exec env (RegisterEncryptedRefugee i l n) s = (s1, Success) ->
      refugeeCount s1 = refugeeCount s + 1
      /\ getEncryptedRefugee (after txs s1) (refugeeCount s1)
         = (i, l, n, block_timestamp env))
  /\ (forall r q s1,
        exec env (CreateAidPackage r q) s = (s1, Success) ->
        packageCount s1 = packageCount s + 1
        /\ getEncryptedAidPackage (after txs s1) (packageCount s1)
           = (r, q, block_timestamp env)).
Proof.
  intros Hreach. split.
  - intros i l n s1 Hexec.
    assert (Hreach1 : reach s1).
    { replace s1 with (fst (exec env (RegisterEncryptedRefugee i l n) s))
        by (rewrite Hexec; reflexivity).
      apply reachable_execute. exact Hreach. }
    apply exec_success_committed in Hexec. inversion Hexec; subst.
    split; [reflexivity|].
    destruct (stored_entries_kept _ txs Hreach1) as (Hr & _ & _).
    unfold getEncryptedRefugee, refugee_at.
    change (refugeeCount (registerEncryptedRefugee_post env s i l n))
      with (refugeeCount s + 1).
    rewrite (Hr (refugeeCount s + 1)
               (EncryptedRefugee.mk (refugeeCount s + 1) i l n (block_timestamp env)));
      [reflexivity|]. cbn. apply lookup_insert_eq.
  - intros r q s1 Hexec.
    assert (Hreach1 : reach s1).
    { replace s1 with (fst (exec env (CreateAidPackage r q) s))
        by (rewrite Hexec; reflexivity).
      apply reachable_execute. exact Hreach. }
    apply exec_success_committed in Hexec. inversion Hexec; subst.
    split; [reflexivity|].
    destruct (stored_entries_kept _ txs Hreach1) as (_ & Hp & _).
    unfold getEncryptedAidPackage, package_at.
    change (packageCount (createAidPackage_post env s r q)) with (packageCount s + 1).
    rewrite (Hp (packageCount s + 1)
               (EncryptedAidPackage.mk (packageCount s + 1) r q (block_timestamp env)));
      [reflexivity|]. cbn. apply lookup_insert_eq.
Qed.

(** ** Callbacks answer requests the contract made *)

Lemma requests_issued_reachable s : reach s -> requests_issued s.
Proof.
  apply reachable_invariant.
  - split; intros k [v Hv]; cbn in Hv; rewrite lookup_empty in Hv; discriminate.
  - intros env c s0 s1. apply requests_issued_step.
Qed.

(** X5: in every state the contract can be in, a callback goes through
    only for a request identifier under which the contract itself
    submitted a decryption request with that callback's selector:
    [performVerification] for an eligibility request, [decryptVerification]
    for a reveal request. *)
Theorem accepted_callbacks_were_requested s env requestId cleartexts proof s' :
  reachable checkSignatures asEuint32 s ->
  (execute checkSignatures asEuint32 env (PerformVerification requestId cleartexts proof) s = (s', Success) ->
   exists cts, In (mkRequest requestId cts performVerification_selector) (submitted s))
  /\ (execute checkSignatures asEuint32 env (DecryptVerification requestId cleartexts proof) s = (s', Success) ->
      exists cts, In (mkRequest requestId cts decryptVerification_selector) (submitted s)).
Proof.
  intros Hreach. destruct (requests_issued_reachable s Hreach) as [Hel Hrv]. split.
  - intros Hexec. apply exec_success_committed in Hexec. inversion Hexec; subst.
    apply Hel. unfold refugee_of_request in *.
    destruct (requestToRefugeeId s !! requestId); [eauto|contradiction].
  - intros Hexec. apply exec_success_committed in Hexec. inversion Hexec; subst.
    apply Hrv. unfold verification_of_request in *.
    destruct (verificationRequestToId s !! requestId); [eauto|contradiction].
Qed.

(** ** The event log *)

(** X6: in every state the contract can be in, the log holds exactly
    [refugeeCount] RefugeeRegistered events, [packageCount]
    AidPackageCreated events and [verificationCount] VerificationCompleted
    events, and as many VerificationRequested events as eligibility
    requests were submitted to the oracle. *)
Theorem event_log_accounts_for_counters s :
  reach s -> log_matches_counters s.
Proof.
  apply reachable_invariant.
  - repeat split.
  - intros env c s0 s1. apply log_matches_counters_step.
Qed.

(** X7: transactions only add to the history.  After any sequence of
    transactions the event log and the list of submitted requests extend
    the earlier ones, and no counter has decreased. *)
Theorem history_only_grows txs s :
  (exists more, emitted (transact checkSignatures asEuint32 txs s) = emitted s ++ more)
  /\ (exists more, submitted (transact checkSignatures asEuint32 txs s) = submitted s ++ more)
  /\ refugeeCount s <= refugeeCount (transact checkSignatures asEuint32 txs s)
  /\ packageCount s <= packageCount (transact checkSignatures asEuint32 txs s)
  /\ verificationCount s <= verificationCount (transact checkSignatures asEuint32 txs s).
Proof.
  apply (after_invariant
    (fun s' =>
       (exists more, emitted s' = emitted s ++ more)
       /\ (exists more, submitted s' = submitted s ++ more)
       /\ refugeeCount s <= refugeeCount s'
       /\ packageCount s <= packageCount s'
       /\ verificationCount s <= verificationCount s')).
  - intros env c s0 s1 ([me He] & [ms Hs] & Hr & Hp & Hv) Hstep.
    destruct Hstep; cbn; rewrite ?He, ?Hs, <- ?app_assoc;
      (split; [eexists; reflexivity|]); (split; [eexists; reflexivity|]); lia.
  - split; [exists []; symmetry; apply app_nil_r|].
    split; [exists []; symmetry; apply app_nil_r|]. lia.
Qed.

(** ** Stored scores *)


(** X9: a result that is revealed and belongs to an identifier already
    assigned (at most [verificationCount]) is final: no sequence of
    transactions changes its eligibility, its priority or its flag. *)
Theorem revealed_numbered_result_is_final s k txs :
  k <= verificationCount s ->
  DecryptedResult.isRevealed (result_at s k) = true ->
  getDecryptedResult (after txs s) k = getDecryptedResult s k.
Proof.
  intros Hk Hrev.
  enough (Hgoal : k <= verificationCount (after txs s)
                  /\ decryptedResults (after txs s) !! k = decryptedResults s !! k).
  { unfold getDecryptedResult, result_at. destruct Hgoal as [_ ->]. reflexivity. }
  apply (after_invariant
    (fun s' => k <= verificationCount s'
               /\ decryptedResults s' !! k = decryptedResults s !! k)).
  - intros env c s0 s1 [Hle Hsame] Hstep.
    destruct Hstep as [| | |rid ct pf i n r e p _ _ _ _ _ _| |rid ct pf e p _ Hfresh _ _];
      try (split; assumption).
    + cbn. split; [lia|]. rewrite lookup_insert_ne by lia. exact Hsame.
    + cbn. split; [exact Hle|].
      rewrite lookup_insert_ne; [exact Hsame|]. intros Heq.
      unfold result_at in Hfresh, Hrev. rewrite Heq, Hsame in Hfresh. congruence.
  - split; [exact Hk|reflexivity].
Qed.

(** [needs] matches [resources] at every one of its positions exactly when
    it is a prefix of it. *)
Lemma matching_positions_full (needs resources : bytes) :
  matching_positions needs resources = blen needs <-> needs `prefix_of` resources.
Proof.
  revert resources. induction needs as [|n needs IH]; intros resources.
  - rewrite matching_positions_nil_l. split; [intros _; apply prefix_nil|reflexivity].
  - destruct resources as [|r resources].
    + rewrite matching_positions_nil_r. unfold blen. cbn [length]. split; [lia|].
      intros Hp. apply prefix_nil_inv in Hp. discriminate.
    + rewrite matching_positions_cons.
      pose proof (matching_positions_le needs resources) as Hle.
      assert (Hlen : blen (n :: needs) = 1 + blen needs) by (unfold blen; cbn [length]; lia).
      rewrite Hlen. destruct (Byte.eqb n r) eqn:E.
      * apply Byte.byte_dec_bl in E. subst r. split.
        -- intros H. apply prefix_cons, IH. lia.
        -- intros H. apply prefix_cons_inv_2 in H. apply IH in H. lia.
      * apply Byte.eqb_false in E. split; [lia|].
        intros H. apply prefix_cons_inv_1 in H. contradiction.
Qed.

(** X10: for [needs] of at most [2^32 - 1] bytes, the priority that
    [calculatePriority] returns is a percentage between 0 and 100; it is
    100 exactly when [needs] is not empty and is a prefix of [resources],
    and it is 0 when [needs] is empty. *)
Theorem priority_is_a_percentage (needs resources : bytes) (p : Z) :
  blen needs <= UINT32_MAX ->
  calculatePriority needs resources = Ok p ->
  0 <= p <= 100
  /\ (p = 100 <-> needs <> [] /\ needs `prefix_of` resources)
  /\ (needs = [] -> p = 0).
Proof.
  intros Hlen Hp. apply calculatePriority_result in Hp as (_ & _ & ->).
  pose proof (matching_positions_nonneg needs resources) as Hpos.
  pose proof (matching_positions_le needs resources) as Hle.
  assert (Hblen : 0 <= blen needs) by (unfold blen; lia).
  unfold to_uint32. rewrite Z.mod_small by (unfold UINT32_MAX in *; lia).
  rewrite <- matching_positions_full.
  set (m := matching_positions needs resources) in *.
  set (d := Z.max 1 (blen needs)).
  assert (Hd : 1 <= d) by (unfold d; lia).
  assert (Hmd : m <= d) by (unfold d; lia).
  assert (Hq : 100 * m / d <= 100).
  { apply Z.div_le_upper_bound; [lia|]. nia. }
  split; [split; [apply Z.div_pos; lia|exact Hq]|]. split.
  - split.
    + intros H100.
      assert (d <= m).
      { destruct (Z.le_gt_cases d m) as [|Hlt]; [assumption|].
        assert (100 * m / d < 100); [|lia].
        apply Z.div_lt_upper_bound; [lia|]. nia. }
      assert (Hne : blen needs <> 0).
      { intros H0. unfold d in *. lia. }
      split; [|unfold d in *; lia].
      intros ->. apply Hne. reflexivity.
    + intros [Hne Hfull].
      assert (blen needs <> 0).
      { unfold blen. destruct needs; [contradiction|]. cbn [length]. lia. }
      assert (Hdm : d = m) by (unfold d; lia).
      rewrite Hdm. apply Z.div_mul. lia.
  - intros ->. subst m d. rewrite matching_positions_nil_l. reflexivity.
Qed.

(** ** Requests that cannot be answered *)

(** X11: the two kinds of request do not mix.  A reveal request whose
    identifier is not also registered as an eligibility request is refused
    by [performVerification], and an eligibility request whose identifier
    is not also registered as a reveal request is refused by
    [decryptVerification], both with [UnknownRequestId] and no state
    change. *)
Theorem callbacks_do_not_cross env s :
  (forall verificationId s1 env' cleartexts proof,
      refugee_of_request s (oracle_requestId env) = 0 ->
      exec env (RequestVerificationResult verificationId) s = (s1, Success) ->
      exec env' (PerformVerification (oracle_requestId env) cleartexts proof) s1
      = (s1, Reverted UnknownRequestId))
  /\ (forall refugeeId packageId s1 env' cleartexts proof,
        verification_of_request s (oracle_requestId env) = 0 ->
        exec env (VerifyEligibility refugeeId packageId) s = (s1, Success) ->
        exec env' (DecryptVerification (oracle_requestId env) cleartexts proof) s1
        = (s1, Reverted UnknownRequestId)).
Proof.
  split.
  - intros v s1 env' ct pf Hnone Hexec.
    apply exec_success_committed in Hexec. inversion Hexec; subst.
    unfold execute. cbn [dispatch]. rewrite performVerification_unfold.
    change (refugee_of_request (requestVerificationResult_post env s v) (oracle_requestId env))
      with (refugee_of_request s (oracle_requestId env)).
    rewrite Hnone. reflexivity.
  - intros r p s1 env' ct pf Hnone Hexec.
    apply exec_success_committed in Hexec. inversion Hexec; subst.
    unfold execute. cbn [dispatch]. rewrite decryptVerification_unfold. cbv zeta.
    change (verification_of_request (verifyEligibility_post env s r p) (oracle_requestId env))
      with (verification_of_request s (oracle_requestId env)).
    rewrite Hnone. reflexivity.
Qed.

(** ** Payloads in the ABI layout are decoded to what was encoded *)

Lemma length_be_bytes (n : nat) : forall v, length (be_bytes n v) = n.
Proof.
  induction n as [|n IH]; intros v; cbn [be_bytes]; [reflexivity|].
  rewrite length_app, IH. cbn [length]. lia.
Qed.

Lemma byte_of_Z_value (v : Z) : Z.of_N (Byte.to_N (byte_of_Z v)) = v mod 256.
Proof.
  unfold byte_of_Z.
  pose proof (Z.mod_pos_bound v 256 ltac:(lia)) as Hm.
  destruct (Byte.of_N (Z.to_N (v mod 256))) as [b|] eqn:E; cbn [default from_option id].
  - apply Byte.to_of_N in E. rewrite E. lia.
  - apply Byte.of_N_None_iff in E. lia.
Qed.

Lemma be_value_snoc (bs : bytes) (b : byte) :
  be_value (bs ++ [b]) = be_value bs * 256 + Z.of_N (Byte.to_N b).
Proof. unfold be_value. rewrite fold_left_app. reflexivity. Qed.

Lemma be_value_be_bytes (n : nat) : forall v,
  0 <= v < 256 ^ Z.of_nat n -> be_value (be_bytes n v) = v.
Proof.
  induction n as [|n IH]; intros v Hv.
  - cbn in *. lia.
  - cbn [be_bytes]. rewrite be_value_snoc, byte_of_Z_value.
    rewrite Nat2Z.inj_succ, Z.pow_succ_r in Hv by lia.
    rewrite IH.
    + pose proof (Z.div_mod v 256 ltac:(lia)). lia.
    + split; [apply Z.div_pos; lia|]. apply Z.div_lt_upper_bound; lia.
Qed.

Lemma abi_word_value (v : Z) : 0 <= v <= UINT64_MAX -> be_value (abi_word v) = v.
Proof.
  intros Hv. apply be_value_be_bytes. unfold UINT64_MAX in Hv.
  change (256 ^ Z.of_nat 32) with (UINT256_MAX + 1). unfold UINT256_MAX. lia.
Qed.

Lemma length_abi_word (v : Z) : length (abi_word v) = 32%nat.
Proof. apply length_be_bytes. Qed.

(** The word found at the end of a prefix. *)
Lemma word_at_after (pre rest : bytes) (v : Z) :
  0 <= v <= UINT64_MAX ->
  word_at (pre ++ abi_word v ++ rest) (blen pre) = v.
Proof.
  intros Hv. unfold word_at, blen. rewrite Nat2Z.id, drop_app_length.
  rewrite take_app_length' by apply (length_abi_word v). apply abi_word_value, Hv.
Qed.

Lemma abi_decode_uint32_uint32_encode (a b : Z) :
  0 <= a <= UINT32_MAX -> 0 <= b <= UINT32_MAX ->
  abi_decode_uint32_uint32 (abi_encode_uint32_uint32 a b) = Ok (a, b).
Proof.
  intros Ha Hb. unfold abi_decode_uint32_uint32, abi_encode_uint32_uint32.
  assert (Hwa : word_at (abi_word a ++ abi_word b) 0 = a).
  { apply (word_at_after [] (abi_word b) a). unfold UINT32_MAX, UINT64_MAX in *. lia. }
  assert (Hwb : word_at (abi_word a ++ abi_word b) 32 = b).
  { rewrite <- (app_nil_r (abi_word b)).
    replace 32 with (blen (abi_word a)) by (unfold blen; rewrite length_abi_word; reflexivity).
    apply word_at_after. unfold UINT32_MAX, UINT64_MAX in *. lia. }
  rewrite Hwa, Hwb.
  assert (Hlen : blen (abi_word a ++ abi_word b) = 64).
  { unfold blen. rewrite length_app, !length_abi_word. reflexivity. }
  rewrite Hlen. cbn [Z.ltb Z.compare Pos.compare Pos.compare_cont].
  destruct (Z.leb_spec a UINT32_MAX); [|lia].
  destruct (Z.leb_spec b UINT32_MAX); [|lia]. reflexivity.
Qed.

Lemma blen_app (x y : bytes) : blen (x ++ y) = blen x + blen y.
Proof. unfold blen. rewrite length_app. lia. Qed.

Lemma blen_abi_pad (b : bytes) : blen b <= blen (abi_pad b) <= blen b + 31.
Proof.
  unfold abi_pad. rewrite blen_app.
  pose proof (Z.mod_pos_bound (- blen b) 32 ltac:(lia)) as Hm.
  assert (Hr : blen (repeat x00 (Z.to_nat ((- blen b) mod 32))) = (- blen b) mod 32).
  { unfold blen at 1. rewrite repeat_length. apply Z2Nat.id. lia. }
  rewrite Hr. lia.
Qed.

Lemma blen_abi_tail (b : bytes) : blen (abi_tail b) = 32 + blen (abi_pad b).
Proof.
  unfold abi_tail. rewrite blen_app. unfold blen at 1. rewrite length_abi_word. lia.
Qed.

(** A string is read back from the place its head word points to. *)
Lemma abi_decode_string_at (pre mid post b : bytes) (head : Z) :
  word_at (pre ++ mid ++ abi_tail b ++ post) head = blen pre + blen mid ->
  blen pre + blen mid <= UINT32_MAX * 4 ->
  blen b <= UINT32_MAX ->
  abi_decode_string (pre ++ mid ++ abi_tail b ++ post) head = Ok b.
Proof.
  intros Hhead Hoff Hb.
  assert (Hb0 : 0 <= blen b) by (unfold blen; lia).
  assert (Hp0 : 0 <= blen pre + blen mid) by (unfold blen; lia).
  pose proof (blen_abi_pad b) as Hpad.
  unfold abi_decode_string. rewrite Hhead.
  set (payload := pre ++ mid ++ abi_tail b ++ post).
  assert (Hpl : blen payload = blen pre + blen mid + (32 + blen (abi_pad b)) + blen post).
  { unfold payload. rewrite !blen_app, blen_abi_tail. lia. }
  assert (Hpost : 0 <= blen post) by (unfold blen; lia).
  destruct (Z.gtb_spec (blen pre + blen mid) UINT64_MAX);
    [unfold UINT32_MAX, UINT64_MAX in *; lia|].
  destruct (Z.ltb_spec (blen pre + blen mid + 31) (blen payload)); [|lia].
  cbn [negb].
  assert (Hshape : payload
                   = (pre ++ mid) ++ abi_word (blen b) ++ (b ++ repeat x00 (Z.to_nat ((- blen b) mod 32)) ++ post)).
  { unfold payload, abi_tail, abi_pad. rewrite <- !app_assoc. reflexivity. }
  assert (Hlenword : word_at payload (blen pre + blen mid) = blen b).
  { rewrite Hshape, <- blen_app. apply word_at_after.
    unfold UINT32_MAX, UINT64_MAX in *. lia. }
  rewrite Hlenword.
  destruct (Z.gtb_spec (blen b) UINT64_MAX); [unfold UINT32_MAX, UINT64_MAX in *; lia|].
  destruct (Z.gtb_spec (blen pre + blen mid + 32 + blen b) (blen payload)); [lia|].
  f_equal. rewrite Hshape, app_assoc.
  replace (Z.to_nat (blen pre + blen mid + 32))
    with (length ((pre ++ mid) ++ abi_word (blen b))).
  - rewrite drop_app_length. unfold blen. rewrite Nat2Z.id. apply take_app_length.
  - rewrite !length_app, length_abi_word. unfold blen. lia.
Qed.

Lemma abi_decode_string_string_string_encode (a b c : bytes) :
  blen a <= UINT32_MAX -> blen b <= UINT32_MAX -> blen c <= UINT32_MAX ->
  abi_decode_string_string_string (abi_encode_string_string_string a b c) = Ok (a, b, c).
Proof.
  intros Ha Hb Hc.
  assert (Ha0 : 0 <= blen a) by (unfold blen; lia).
  assert (Hb0 : 0 <= blen b) by (unfold blen; lia).
  assert (Hc0 : 0 <= blen c) by (unfold blen; lia).
  pose proof (blen_abi_pad a) as Hpa. pose proof (blen_abi_pad b) as Hpb.
  pose proof (blen_abi_pad c) as Hpc.
  pose proof (blen_abi_tail a) as Hta. pose proof (blen_abi_tail b) as Htb.
  pose proof (blen_abi_tail c) as Htc.
  unfold abi_decode_string_string_string, abi_encode_string_string_string. cbv zeta.
  set (w0 := abi_word 96).
  set (w1 := abi_word (96 + blen (abi_tail a))).
  set (w2 := abi_word (96 + blen (abi_tail a) + blen (abi_tail b))).
  assert (L0 : blen w0 = 32) by (unfold blen, w0; rewrite length_abi_word; reflexivity).
  assert (L1 : blen w1 = 32) by (unfold blen, w1; rewrite length_abi_word; reflexivity).
  assert (L2 : blen w2 = 32) by (unfold blen, w2; rewrite length_abi_word; reflexivity).
  set (payload := w0 ++ w1 ++ w2 ++ abi_tail a ++ abi_tail b ++ abi_tail c).
  assert (Hw0 : word_at payload 0 = 96).
  { apply (word_at_after [] _ 96). unfold UINT64_MAX. lia. }
  assert (Hw1 : word_at payload 32 = 96 + blen (abi_tail a)).
  { unfold payload. rewrite <- L0. apply word_at_after.
    unfold UINT32_MAX, UINT64_MAX in *. lia. }
  assert (Hw2 : word_at payload 64 = 96 + blen (abi_tail a) + blen (abi_tail b)).
  { unfold payload. rewrite (app_assoc w0 w1).
    replace 64 with (blen (w0 ++ w1)) by (rewrite blen_app; lia).
    apply word_at_after. unfold UINT32_MAX, UINT64_MAX in *. lia. }
  assert (Hlen : blen payload = 96 + blen (abi_tail a) + blen (abi_tail b) + blen (abi_tail c)).
  { unfold payload. rewrite !blen_app. lia. }
  destruct (Z.ltb_spec (blen payload) 96); [lia|].
  assert (Hpre : blen (w0 ++ w1 ++ w2) = 96) by (rewrite !blen_app; lia).
  assert (Da : abi_decode_string payload 0 = Ok a).
  { pose proof (abi_decode_string_at (w0 ++ w1 ++ w2) [] (abi_tail b ++ abi_tail c) a 0) as Hd.
    cbn [app] in Hd. rewrite <- !app_assoc in Hd. apply Hd.
    - fold payload. rewrite Hw0, Hpre. reflexivity.
    - rewrite Hpre. unfold UINT32_MAX, blen. cbn [length]. lia.
    - exact Ha. }
  assert (Db : abi_decode_string payload 32 = Ok b).
  { pose proof (abi_decode_string_at (w0 ++ w1 ++ w2) (abi_tail a) (abi_tail c) b 32) as Hd.
    rewrite <- !app_assoc in Hd. apply Hd.
    - fold payload. rewrite Hw1, Hpre. reflexivity.
    - rewrite Hpre. unfold UINT32_MAX in *. lia.
    - exact Hb. }
  assert (Dc : abi_decode_string payload 64 = Ok c).
  { pose proof (abi_decode_string_at (w0 ++ w1 ++ w2) (abi_tail a ++ abi_tail b) [] c 64) as Hd.
    rewrite <- !app_assoc, !app_nil_r in Hd. apply Hd.
    - fold payload. rewrite Hw2, Hpre, blen_app. lia.
    - rewrite Hpre, blen_app. unfold UINT32_MAX in *. lia.
    - exact Hc. }
  rewrite Da, Db, Dc. reflexivity.
Qed.

(** ** The two phases on well-formed payloads *)

(** X13: a [performVerification] callback for a registered request, with
    an accepted proof and a payload that is the ABI encoding of three
    strings of at most [2^32 - 1] bytes whose match count times 100 fits
    [uint32], goes through unless [verificationCount] is at its maximum:
    it creates the next verification for the registered refugee and stores
    the two formula values as its result, not revealed. *)
Theorem eligibility_callback_stores_scores
    env s requestId (identity needs resources proof : bytes) :
  refugee_of_request s requestId <> 0 ->
  checkSignatures requestId
    (abi_encode_string_string_string identity needs resources) proof = true ->
  verificationCount s < UINT256_MAX ->
  blen identity <= UINT32_MAX -> blen needs <= UINT32_MAX -> blen resources <= UINT32_MAX ->
  100 * matching_positions needs resources <= UINT32_MAX ->
  exists s',
    exec env (PerformVerification requestId
                (abi_encode_string_string_string identity needs resources) proof) s
    = (s', Success)
    /\ verificationCount s' = verificationCount s + 1
    /\ getDecryptedResult s' (verificationCount s')
       = (eligibility_formula identity needs, priority_formula needs resources, false)
    /\ getEncryptedVerification s' (verificationCount s')
       = (asEuint32 (eligibility_formula identity needs),
          asEuint32 (priority_formula needs resources),
          refugee_of_request s requestId, 0, block_timestamp env).
Proof.
  intros Hreg Hsig Hmax Hi Hn Hr Hscaled.
  exists (performVerification_post asEuint32 env s (refugee_of_request s requestId)
            (eligibility_formula identity needs) (priority_formula needs resources)).
  split.
  - apply committed_exec.
    apply (committed_perform checkSignatures asEuint32 env s requestId _ proof
             identity needs resources); try assumption.
    + apply abi_decode_string_string_string_encode; assumption.
    + lia.
    + apply calculateEligibility_formula.
    + apply calculatePriority_formula; assumption.
  - split; [reflexivity|]. split.
    + unfold getDecryptedResult, result_at. cbn. rewrite lookup_insert_eq. reflexivity.
    + unfold getEncryptedVerification, verification_at. cbn.
      rewrite lookup_insert_eq. reflexivity.
Qed.

(** X14: a [decryptVerification] callback for a registered reveal request
    whose result is not yet revealed, with an accepted proof and a payload
    that is the ABI encoding of two [uint32] values, goes through: the
    result of the registered verification then reads as those two values,
    revealed, whatever scores were stored before, and no verification is
    changed. *)
Theorem reveal_callback_stores_values env s requestId (a b : Z) (proof : bytes) :
  verification_of_request s requestId <> 0 ->
  DecryptedResult.isRevealed (result_at s (verification_of_request s requestId)) = false ->
  checkSignatures requestId (abi_encode_uint32_uint32 a b) proof = true ->
  0 <= a <= UINT32_MAX -> 0 <= b <= UINT32_MAX ->
  exists s',
    exec env (DecryptVerification requestId (abi_encode_uint32_uint32 a b) proof) s
    = (s', Success)
    /\ getDecryptedResult s' (verification_of_request s requestId) = (a, b, true)
    /\ encryptedVerifications s' = encryptedVerifications s.
Proof.
  intros Hreg Hrev Hsig Ha Hb.
  exists (decryptVerification_post s (verification_of_request s requestId) a b).
  split.
  - apply committed_exec.
    apply (committed_decrypt checkSignatures asEuint32 env s requestId _ proof a b);
      try assumption.
    apply abi_decode_uint32_uint32_encode; assumption.
  - split; [|reflexivity].
    unfold getDecryptedResult, result_at. cbn. rewrite lookup_insert_eq. reflexivity.
Qed.

(** X20: when two reveal requests are outstanding for the same
    verification, the callback delivered first reveals the result and the
    callback of the other request is then reverted with [AlreadyRevealed]:
    the values stay those of the first callback. *)
Theorem second_reveal_callback_is_refused
    env s request1 request2 cleartexts1 proof1 s1 :
  verification_of_request s request2 = verification_of_request s request1 ->
  exec env (DecryptVerification request1 cleartexts1 proof1) s = (s1, Success) ->
  DecryptedResult.isRevealed (result_at s1 (verification_of_request s request1)) = true
  /\ forall env' cleartexts2 proof2,
       exec env' (DecryptVerification request2 cleartexts2 proof2) s1
       = (s1, Reverted AlreadyRevealed).
Proof.
  intros Hsame Hexec.
  apply exec_success_committed in Hexec. inversion Hexec; subst.
  assert (Hrev : DecryptedResult.isRevealed
                   (result_at (decryptVerification_post s (verification_of_request s request1)
                                 eligibility priority)
                      (verification_of_request s request1)) = true).
  { unfold result_at. cbn. rewrite lookup_insert_eq. reflexivity. }
  split; [exact Hrev|].
  intros env' cleartexts2 proof2. unfold execute. cbn [dispatch].
  rewrite decryptVerification_unfold. cbv zeta.
  change (verification_of_request
            (decryptVerification_post s (verification_of_request s request1)
               eligibility priority) request2)
    with (verification_of_request s request2).
  rewrite Hsame.
  destruct (Z.eqb_spec (verification_of_request s request1) 0); [contradiction|].
  rewrite Hrev. reflexivity.
Qed.

End LedgerProperties.

(** ** The ledger properties on sample transactions *)

Lemma sample_transact_reachable txs s :
  reachable kms_accepts_all handle_of_value s ->
  reachable kms_accepts_all handle_of_value (sample_transact txs s).
Proof. apply after_reachable. Qed.

Lemma eligibility_requested_reachable :
  reachable kms_accepts_all handle_of_value eligibility_requested.
Proof. apply sample_transact_reachable, reachable_deployed. Qed.

Lemma callback_delivered_reachable :
  reachable kms_accepts_all handle_of_value callback_delivered.
Proof. apply sample_transact_reachable, eligibility_requested_reachable. Qed.


Lemma packages_are_numbered_witness :
  packages_numbered eligibility_requested.
Proof.
  apply (packages_are_numbered kms_accepts_all handle_of_value).
  apply eligibility_requested_reachable.
Defined.

Lemma verifications_are_numbered_witness :
  verifications_numbered callback_delivered.
Proof.
  apply (verifications_are_numbered kms_accepts_all handle_of_value).
  apply callback_delivered_reachable.
Defined.

Lemma stored_entries_are_written_once_witness :
  encryptedRefugees eligibility_requested !! 1 = Some (EncryptedRefugee.mk 1 11 12 13 100)
  /\ encryptedRefugees
       (sample_transact
          [ (at_time 103 0, PerformVerification 7 sample_strings []);
            (at_time 104 0, RegisterEncryptedRefugee 31 32 33) ]
          eligibility_requested) !! 1
     = Some (EncryptedRefugee.mk 1 11 12 13 100).
Proof.
  assert (Hstored : encryptedRefugees eligibility_requested !! 1
                    = Some (EncryptedRefugee.mk 1 11 12 13 100))
    by (vm_compute; reflexivity).
  split; [exact Hstored|].
  destruct (stored_entries_are_written_once kms_accepts_all handle_of_value
              eligibility_requested
              [ (at_time 103 0, PerformVerification 7 sample_strings []);
                (at_time 104 0, RegisterEncryptedRefugee 31 32 33) ]
              1 eligibility_requested_reachable) as (Hr & _ & _).
  apply Hr. exact Hstored.
Defined.

Lemma registered_entries_read_back_witness :
  getEncryptedRefugee
    (sample_transact
       [ (at_time 101 0, CreateAidPackage 21 22);
         (at_time 102 0, RegisterEncryptedRefugee 31 32 33) ]
       (fst (sample_execute (at_time 100 0) (RegisterEncryptedRefugee 11 12 13) deployed)))
    1
  = (11, 12, 13, 100).
Proof.
  destruct (registered_entries_read_back kms_accepts_all handle_of_value deployed
              (at_time 100 0)
              [ (at_time 101 0, CreateAidPackage 21 22);
                (at_time 102 0, RegisterEncryptedRefugee 31 32 33) ]
              (reachable_deployed _ _)) as [Hrefugee _].
  destruct (Hrefugee 11 12 13
              (fst (sample_execute (at_time 100 0) (RegisterEncryptedRefugee 11 12 13) deployed)))
    as [Hcount Hread].
  - vm_compute. reflexivity.
  - exact Hread.
Defined.

Lemma accepted_callbacks_were_requested_witness :
  exists cts, In (mkRequest 7 cts performVerification_selector)
                (submitted eligibility_requested).
Proof.
  destruct (accepted_callbacks_were_requested kms_accepts_all handle_of_value
              eligibility_requested (at_time 103 0) 7 sample_strings [] callback_delivered
              eligibility_requested_reachable) as [Hperform _].
  apply Hperform. vm_compute. reflexivity.
Defined.

Lemma event_log_accounts_for_counters_witness :
  log_matches_counters callback_delivered.
Proof.
  apply (event_log_accounts_for_counters kms_accepts_all handle_of_value).
  apply callback_delivered_reachable.
Defined.


Lemma revealed_numbered_result_is_final_witness :
  getDecryptedResult
    (sample_transact
       [ (at_time 107 0, DecryptVerification 43 other_scores []);
         (at_time 108 44, RequestVerificationResult 1);
         (at_time 109 0, RegisterEncryptedRefugee 31 32 33) ]
       revealed_again) 1
  = (100, 100, true).
Proof.
  rewrite (revealed_numbered_result_is_final kms_accepts_all handle_of_value
             revealed_again 1).
  - vm_compute. reflexivity.
  - vm_compute. discriminate.
  - vm_compute. reflexivity.
Defined.

Lemma priority_is_a_percentage_witness :
  0 <= 80 <= 100
  /\ (80 = 100 <-> ascii_bytes "abcde" <> [] /\ ascii_bytes "abcde" `prefix_of` ascii_bytes "abxde").
Proof.
  destruct (priority_is_a_percentage (ascii_bytes "abcde") (ascii_bytes "abxde") 80)
    as (Hrange & Hfull & _).
  - vm_compute. discriminate.
  - vm_compute. reflexivity.
  - split; [exact Hrange|exact Hfull].
Defined.

Lemma eligibility_callback_stores_scores_witness :
  exists s',
    sample_execute (at_time 103 0) (PerformVerification 7 sample_strings [])
      eligibility_requested
    = (s', Success)
    /\ getDecryptedResult s' 1 = (100, 100, false).
Proof.
  destruct (eligibility_callback_stores_scores kms_accepts_all handle_of_value
              (at_time 103 0) eligibility_requested 7
              (ascii_bytes "refugee-id-001") (ascii_bytes "food,water")
              (ascii_bytes "food,water") [])
    as (s' & Hexec & Hcount & Hresult & _).
  - vm_compute. discriminate.
  - reflexivity.
  - vm_compute. reflexivity.
  - vm_compute. discriminate.
  - vm_compute. discriminate.
  - vm_compute. discriminate.
  - vm_compute. discriminate.
  - exists s'. split; [exact Hexec|].
    replace 1 with (verificationCount s') by (rewrite Hcount; vm_compute; reflexivity).
    rewrite Hresult. vm_compute. reflexivity.
Defined.

Lemma reveal_callback_stores_values_witness :
  exists s',
    sample_execute (at_time 106 0) (DecryptVerification 9 sample_scores [])
      (sample_transact [ (at_time 105 9, RequestVerificationResult 1) ] callback_delivered)
    = (s', Success)
    /\ getDecryptedResult s' 1 = (100, 100, true).
Proof.
  destruct (reveal_callback_stores_values kms_accepts_all handle_of_value
              (at_time 106 0)
              (sample_transact [ (at_time 105 9, RequestVerificationResult 1) ]
                 callback_delivered)
              9 100 100 [])
    as (s' & Hexec & Hresult & _).
  - vm_compute. discriminate.
  - vm_compute. reflexivity.
  - reflexivity.
  - unfold UINT32_MAX. lia.
  - unfold UINT32_MAX. lia.
  - exists s'. split; [exact Hexec|]. exact Hresult.
Defined.

Lemma second_reveal_callback_is_refused_witness :
  let s := sample_transact
             [ (at_time 105 8, RequestVerificationResult 1);
               (at_time 106 9, RequestVerificationResult 1) ] callback_delivered in
  let s1 := fst (sample_execute (at_time 107 0) (DecryptVerification 8 sample_scores []) s) in
  sample_execute (at_time 108 0) (DecryptVerification 9 other_scores []) s1
  = (s1, Reverted AlreadyRevealed)
  /\ getDecryptedResult s1 1 = (100, 100, true).
Proof.
  intros s s1.
  destruct (second_reveal_callback_is_refused kms_accepts_all handle_of_value
              (at_time 107 0) s 8 9 sample_scores [] s1) as [_ Hrefused].
  - vm_compute. reflexivity.
  - vm_compute. reflexivity.
  - split; [apply Hrefused|]. vm_compute. reflexivity.
Defined.

(** * Further properties of the web client *)

Section ClientProperties.

Import Client.

(** ** The list of needs in the request form *)

Lemma spread_array_dense (arr : list Slot) :
  forallb is_text arr = true -> spread_array arr = arr.
Proof.
  unfold spread_array.
  induction arr as [|x arr IH]; [reflexivity|]. cbn [forallb List.map].
  intros H. apply andb_prop in H as [Hx H].
  destruct x; try discriminate. rewrite IH by exact H. reflexivity.
Qed.

Lemma forallb_insert_text (arr : list Slot) (v : string) : forall i,
  forallb is_text arr = true -> forallb is_text (<[i := Text v]> arr) = true.
Proof.
  induction arr as [|x arr IH]; intros i H; [reflexivity|].
  cbn [forallb] in H. apply andb_prop in H as [Hx H].
  destruct i as [|i]; cbn [insert list_insert forallb is_text].
  - exact H.
  - rewrite Hx. apply IH, H.
Qed.

Lemma filter_not_index_past (arr : list Slot) : forall i index,
  (index < i)%nat -> forallb is_text arr = true ->
  filter_not_index arr i index = arr.
Proof.
  induction arr as [|x arr IH]; intros i index Hlt H; [reflexivity|].
  cbn [forallb] in H. apply andb_prop in H as [Hx H].
  destruct x as [| |s]; try discriminate. cbn [filter_not_index].
  destruct (Nat.eqb_spec i index); [lia|].
  rewrite IH by (assumption || lia). reflexivity.
Qed.

(** On an array without holes, filtering out a position is deleting it. *)
Lemma filter_not_index_dense (arr : list Slot) : forall i index,
  (i <= index)%nat -> forallb is_text arr = true ->
  filter_not_index arr i index = take (index - i) arr ++ drop (S (index - i)) arr.
Proof.
  induction arr as [|x arr IH]; intros i index Hle H.
  - cbn. rewrite take_nil. reflexivity.
  - cbn [forallb] in H. apply andb_prop in H as [Hx H].
    destruct x as [| |s]; try discriminate. cbn [filter_not_index].
    destruct (Nat.eqb_spec i index) as [->|Hne].
    + rewrite Nat.sub_diag. cbn [take drop app].
      rewrite drop_0. apply filter_not_index_past; [lia|exact H].
    + rewrite IH by (assumption || lia).
      replace (index - i)%nat with (S (index - S i)) by lia. reflexivity.
Qed.

Lemma drawn_in_range (recordData : FormData) (index : nat) :
  drawn recordData index = true -> (index < length (needs recordData))%nat.
Proof.
  unfold drawn. destruct (needs recordData !! index) eqn:E; [|discriminate].
  intros _. apply lookup_lt_Some in E. exact E.
Qed.

(** X15: whatever the user does with the request form, its list of needs
    is never empty and holds only strings (no hole, no [undefined]), so
    the filter that [submitRecord] applies to it never throws; and the
    description stays empty, as no input edits it. *)
Theorem form_needs_stay_dense (recordData : FormData) :
  form_reachable recordData ->
  needs recordData <> []
  /\ forallb is_text (needs recordData) = true
  /\ (forall blank, kept_needs blank (needs recordData) <> None)
  /\ description recordData = JStr "".
Proof.
  intros Hreach.
  assert (Hinv : (0 < length (needs recordData))%nat
                 /\ forallb is_text (needs recordData) = true
                 /\ description recordData = JStr "").
  { induction Hreach as [|recordData a _ (Hlen & Hdense & Hdesc) Hoff].
    - cbn. auto with lia.
    - destruct a as [name value|index value| |index]; cbn [act offered] in *.
      + destruct name; cbn; auto.
      + apply drawn_in_range in Hoff.
        unfold handleNeedChange, assign. cbn [needs with_needs description].
        rewrite spread_array_dense by exact Hdense.
        destruct (Nat.ltb_spec index (length (needs recordData))); [|lia].
        rewrite length_insert. split; [exact Hlen|].
        split; [apply forallb_insert_text, Hdense|exact Hdesc].
      + unfold addNeed. cbn [needs with_needs description].
        rewrite spread_array_dense by exact Hdense.
        rewrite length_app, forallb_app, Hdense. cbn. split; [lia|]. auto.
      + apply andb_prop in Hoff as [Hdrawn Hmany].
        apply drawn_in_range in Hdrawn. apply Nat.ltb_lt in Hmany.
        unfold removeNeed. cbn [needs with_needs description].
        rewrite filter_not_index_dense by (exact Hdense || lia).
        rewrite Nat.sub_0_r. split; [|split; [|exact Hdesc]].
        * rewrite length_app, length_take, length_drop. lia.
        * rewrite <- (take_drop index (needs recordData)), forallb_app in Hdense.
          apply andb_prop in Hdense as [Htake Hdrop].
          rewrite forallb_app, Htake. cbn [andb].
          rewrite <- (take_drop 1 (drop index (needs recordData))), forallb_app in Hdrop.
          apply andb_prop in Hdrop as [_ Hdrop]. rewrite drop_drop in Hdrop.
          replace (index + 1)%nat with (S index) in Hdrop by lia. exact Hdrop. }
  destruct Hinv as (Hlen & Hdense & Hdesc).
  split; [intros Hnil; rewrite Hnil in Hlen; cbn in Hlen; lia|].
  split; [exact Hdense|]. split; [|exact Hdesc].
  intros blank. clear Hlen Hdesc Hreach. revert Hdense.
  induction (needs recordData) as [|x arr IH]; [discriminate|].
  cbn [forallb]. intros H. apply andb_prop in H as [Hx H].
  destruct x as [| |s]; try discriminate. cbn [kept_needs].
  specialize (IH H). destruct (kept_needs blank arr); [discriminate|contradiction].
Qed.

(** X16: on a list of needs that holds only strings, [removeNeed] deletes
    exactly the entry at the given position and keeps the others in order
    (nothing, when the position is past the end); [handleNeedChange]
    replaces exactly that entry when the position is within the list and
    otherwise lengthens the list, leaving holes before the new entry;
    [addNeed] appends an empty entry. *)
Theorem needs_editing (recordData : FormData) (index : nat) (value : string) :
  forallb is_text (needs recordData) = true ->
  needs (removeNeed recordData index)
  = take index (needs recordData) ++ drop (S index) (needs recordData)
  /\ ((index < length (needs recordData))%nat ->
      needs (handleNeedChange recordData index value)
      = <[index := Text value]> (needs recordData))
  /\ ((length (needs recordData) <= index)%nat ->
      needs (handleNeedChange recordData index value)
      = needs recordData ++ repeat Hole (index - length (needs recordData)) ++ [Text value])
  /\ needs (addNeed recordData) = needs recordData ++ [Text ""].
Proof.
  intros Hdense. split; [|split; [|split]].
  - unfold removeNeed. cbn [needs with_needs].
    rewrite filter_not_index_dense by (exact Hdense || lia).
    rewrite Nat.sub_0_r. reflexivity.
  - intros Hlt. unfold handleNeedChange, assign. cbn [needs with_needs].
    rewrite spread_array_dense by exact Hdense.
    destruct (Nat.ltb_spec index (length (needs recordData))); [reflexivity|lia].
  - intros Hge. unfold handleNeedChange, assign. cbn [needs with_needs].
    rewrite spread_array_dense by exact Hdense.
    destruct (Nat.ltb_spec index (length (needs recordData))); [lia|reflexivity].
  - unfold addNeed. cbn [needs with_needs].
    rewrite spread_array_dense by exact Hdense. reflexivity.
Qed.

(** ** Submitting a record *)






(** ** From pending to distributed *)

Lemma get_set_field_ne (k k' : string) (v : JSON) (fields : list (string * JSON)) :
  k <> k' -> get_field k (set_field k' v fields) = get_field k fields.
Proof.
  intros Hne. induction fields as [|[k0 v0] fields IH]; cbn [set_field get_field].
  - destruct (String.eqb_spec k' k); [congruence|reflexivity].
  - destruct (String.eqb_spec k0 k') as [->|Hk0]; cbn [get_field].
    + destruct (String.eqb_spec k' k); [congruence|reflexivity].
    + destruct (String.eqb_spec k0 k); [reflexivity|exact IH].
Qed.

(** Writing a status into a stored object changes the loaded entry in its
    status alone. *)
Lemma load_row_written (store : Store) (recordId newStatus : string)
    (fields : list (string * JSON)) (row : AidRecord) :
  newStatus <> ""%string ->
  store !! record_key recordId = Some (JObj fields) ->
  load_row store recordId = Some row ->
  load_row (<[record_key recordId := JObj (set_field "status" (JStr newStatus) fields)]> store)
    recordId
  = Some (with_status row (JStr newStatus)).
Proof.
  intros Hne Hstored Hrow. unfold load_row, Store in *.
  rewrite lookup_insert_eq.
  rewrite Hstored in Hrow. injection Hrow as <-.
  unfold with_status, read. cbn [default from_option id row_id row_encryptedData
    row_timestamp row_owner row_category row_amount row_location row_needs].
  rewrite get_set_field, !get_set_field_ne by discriminate.
  unfold or_else at 1. cbn [truthy default from_option id].
  destruct (String.eqb_spec newStatus ""); [contradiction|]. reflexivity.
Qed.

(** X19: for a stored record that is an object, approving and then
    distributing go through whatever status it has; after each step the
    record loads as the same entry with only its status changed, first to
    "approved", offering the Distribute button, then to "distributed",
    offering neither button; and no other key of the store is touched. *)
Theorem approve_then_distribute (store : Store) (recordId : string)
    (fields : list (string * JSON)) (row : AidRecord) :
  store !! record_key recordId = Some (JObj fields) ->
  load_row store recordId = Some row ->
  exists store2 store3,
    approveRecord true true store recordId = ActionDone store2
    /\ load_row store2 recordId = Some (with_status row (JStr "approved"))
    /\ row_buttons (JStr "approved") = [Details; Distribute]
    /\ distributeRecord true true store2 recordId = ActionDone store3
    /\ load_row store3 recordId = Some (with_status row (JStr "distributed"))
    /\ row_buttons (JStr "distributed") = [Details]
    /\ forall k, k <> record_key recordId ->
         store2 !! k = store !! k /\ store3 !! k = store !! k.
Proof.
  intros Hstored Hrow.
  set (fields2 := set_field "status" (JStr "approved") fields).
  set (store2 := <[record_key recordId := JObj fields2]> store).
  set (store3 := <[record_key recordId :=
                     JObj (set_field "status" (JStr "distributed") fields2)]> store2).
  assert (Hrow2 : load_row store2 recordId = Some (with_status row (JStr "approved"))).
  { apply load_row_written; [discriminate|exact Hstored|exact Hrow]. }
  exists store2, store3. split; [|split; [exact Hrow2|split; [reflexivity|split; [|split; [|split]]]]].
  - unfold approveRecord, write_status. cbn [negb]. rewrite Hstored. reflexivity.
  - unfold distributeRecord, write_status. cbn [negb]. unfold store2 at 1.
    unfold Store. rewrite lookup_insert_eq. reflexivity.
  - unfold store3.
    rewrite (load_row_written store2 recordId "distributed" fields2
               (with_status row (JStr "approved")));
      [reflexivity|discriminate|unfold Store; apply lookup_insert_eq|exact Hrow2].
  - reflexivity.
  - intros k Hk. unfold store3, store2, Store. rewrite !lookup_insert_ne by congruence.
    split; reflexivity.
Qed.

End ClientProperties.

(** ** The web client on sample inputs *)

Lemma form_needs_stay_dense_witness :
  Client.needs (Client.act (Client.act (Client.act Client.initial_form Client.AddNeed)
                              (Client.ChangeNeed 1 "water")) (Client.RemoveNeed 0))
  = [Client.Text "water"]
  /\ forall blank,
       Client.kept_needs blank
         (Client.needs (Client.act (Client.act (Client.act Client.initial_form Client.AddNeed)
                                      (Client.ChangeNeed 1 "water")) (Client.RemoveNeed 0)))
       <> None.
Proof.
  split; [reflexivity|].
  apply (form_needs_stay_dense
           (Client.act (Client.act (Client.act Client.initial_form Client.AddNeed)
                          (Client.ChangeNeed 1 "water")) (Client.RemoveNeed 0))).
  apply Client.form_act; [|reflexivity].
  apply Client.form_act; [|reflexivity].
  apply Client.form_act; [|reflexivity].
  apply Client.form_initial.
Defined.

Lemma needs_editing_witness :
  Client.needs (Client.removeNeed Client.sample_form 1)
  = [Client.Text "insulin"; Client.Text "syringes"]
  /\ Client.needs (Client.handleNeedChange Client.sample_form 4 "water")
     = [Client.Text "insulin"; Client.Text " "; Client.Text "syringes"; Client.Hole;
        Client.Text "water"].
Proof.
  destruct (needs_editing Client.sample_form 1 "x") as (Hremove & _).
  - reflexivity.
  - destruct (needs_editing Client.sample_form 4 "water") as (_ & _ & Hpast & _).
    + reflexivity.
    + split; [rewrite Hremove; reflexivity|]. rewrite Hpast; [reflexivity|]. cbn. lia.
Defined.


Lemma approve_then_distribute_witness :
  exists store2 store3,
    Frontend.approveRecord true true Frontend.sample_store "r2" = Frontend.ActionDone store2
    /\ (Client.row_status <$> Client.load_row store2 "r2") = Some (Frontend.JStr "approved")
    /\ Frontend.distributeRecord true true store2 "r2" = Frontend.ActionDone store3
    /\ (Client.row_status <$> Client.load_row store3 "r2")
       = Some (Frontend.JStr "distributed").
Proof.
  destruct (approve_then_distribute Frontend.sample_store "r2"
              [ ("data", Frontend.JStr "FHE-e30=");
                ("timestamp", Frontend.JNum 1700000000);
                ("owner", Frontend.JStr "0xabc");
                ("category", Frontend.JStr "food");
                ("status", Frontend.JStr "rejected");
                ("amount", Frontend.JNum 3);
                ("location", Frontend.JStr "camp");
                ("needs", Frontend.JArr [Frontend.JStr "water"]) ]%string
              (Client.mkAidRecord "r2" (Some (Frontend.JStr "FHE-e30="))
                 (Some (Frontend.JNum 1700000000)) (Some (Frontend.JStr "0xabc"))
                 (Some (Frontend.JStr "food")) (Frontend.JStr "rejected")
                 (Frontend.JNum 3) (Frontend.JStr "camp")
                 (Frontend.JArr [Frontend.JStr "water"])))
    as (store2 & store3 & Happrove & Hrow2 & _ & Hdistribute & Hrow3 & _).
  - vm_compute. reflexivity.
  - vm_compute. reflexivity.
  - exists store2, store3.
    split; [exact Happrove|]. split; [rewrite Hrow2; reflexivity|].
    split; [exact Hdistribute|]. rewrite Hrow3. reflexivity.
Defined.

(** * Request identifiers between submission and callback *)

Section RequestIdentifiers.

Variable checkSignatures : Z -> bytes -> bytes -> bool.
Variable asEuint32 : Z -> euint32.

Local Abbreviation exec := (execute checkSignatures asEuint32).
Local Abbreviation after := (transact checkSignatures asEuint32).

(** Transactions that are not handed the identifier [r] leave what both
    correlation tables hold for it. *)
Lemma correlation_kept (r : Z) (txs : list (Env * Call)) : forall s,
  not_handed_out r txs ->
  requestToRefugeeId (after txs s) !! r = requestToRefugeeId s !! r
  /\ verificationRequestToId (after txs s) !! r = verificationRequestToId s !! r.
Proof.
  induction txs as [|[env c] txs IH]; intros s Hfree; [split; reflexivity|].
  apply Forall_cons in Hfree as [Hhead Hfree].
  rewrite (after_cons checkSignatures asEuint32).
  destruct (IH (fst (exec env c s)) Hfree) as [-> ->]. clear IH Hfree.
  destruct (exec_outcome checkSignatures asEuint32 env c s) as [[e He]|[s' [He Hstep]]];
    rewrite He; cbn [fst]; [split; reflexivity|].
  unfold obtains in Hhead. cbn [fst snd] in Hhead.
  destruct Hstep; cbn; try (split; reflexivity).
  - apply Z.eqb_neq in Hhead. rewrite lookup_insert_ne by exact Hhead.
    split; reflexivity.
  - apply Z.eqb_neq in Hhead. rewrite lookup_insert_ne by exact Hhead.
    split; reflexivity.
Qed.

Lemma targets_kept (r : Z) (txs : list (Env * Call)) (s : State) :
  not_handed_out r txs ->
  refugee_of_request (after txs s) r = refugee_of_request s r
  /\ verification_of_request (after txs s) r = verification_of_request s r.
Proof.
  intros Hfree. unfold refugee_of_request, verification_of_request.
  destruct (correlation_kept r txs s Hfree) as [-> ->]. split; reflexivity.
Qed.

(** A revealed result of an identifier already assigned is kept by every
    sequence of transactions. *)
Lemma revealed_result_kept (s : State) (k : Z) (txs : list (Env * Call)) :
  k <= verificationCount s ->
  DecryptedResult.isRevealed (result_at s k) = true ->
  result_at (after txs s) k = result_at s k.
Proof.
  intros Hk Hrev.
  enough (Hgoal : k <= verificationCount (after txs s)
                  /\ decryptedResults (after txs s) !! k = decryptedResults s !! k).
  { unfold result_at. destruct Hgoal as [_ ->]. reflexivity. }
  apply (after_invariant checkSignatures asEuint32
    (fun s' => k <= verificationCount s'
               /\ decryptedResults s' !! k = decryptedResults s !! k)).
  - intros env c s0 s1 [Hle Hsame] Hstep.
    destruct Hstep as [| | |rid ct pf i n r e p _ _ _ _ _ _| |rid ct pf e p _ Hfresh _ _];
      try (split; assumption).
    + cbn. split; [lia|]. rewrite lookup_insert_ne by lia. exact Hsame.
    + cbn. split; [exact Hle|].
      rewrite lookup_insert_ne; [exact Hsame|]. intros Heq.
      unfold result_at in Hfresh, Hrev. rewrite Heq, Hsame in Hfresh. congruence.
  - split; [exact Hk|reflexivity].
Qed.

Lemma unregistered_callbacks_refused env s requestId cleartexts proof :
  (refugee_of_request s requestId = 0 ->
   exec env (PerformVerification requestId cleartexts proof) s
   = (s, Reverted UnknownRequestId))
  /\ (verification_of_request s requestId = 0 ->
      exec env (DecryptVerification requestId cleartexts proof) s
      = (s, Reverted UnknownRequestId)).
Proof.
  split; intros Hzero; unfold execute; cbn [dispatch].
  - rewrite performVerification_unfold, Hzero. reflexivity.
  - rewrite decryptVerification_unfold. cbv zeta. rewrite Hzero. reflexivity.
Qed.

Lemma revealed_callback_refused env s requestId cleartexts proof :
  verification_of_request s requestId <> 0 ->
  DecryptedResult.isRevealed (result_at s (verification_of_request s requestId)) = true ->
  exec env (DecryptVerification requestId cleartexts proof) s
  = (s, Reverted AlreadyRevealed).
Proof.
  intros Hreg Hrev. unfold execute. cbn [dispatch].
  rewrite decryptVerification_unfold. cbv zeta.
  destruct (Z.eqb_spec (verification_of_request s requestId) 0); [contradiction|].
  rewrite Hrev. reflexivity.
Qed.

Lemma verifyEligibility_commits env refugeeId packageId s s1 :
  exec env (VerifyEligibility refugeeId packageId) s = (s1, Success) ->
  s1 = verifyEligibility_post env s refugeeId packageId.
Proof.
  unfold execute. cbn [dispatch]. rewrite verifyEligibility_unfold.
  intros [= <-]. reflexivity.
Qed.

Lemma requestVerificationResult_commits env verificationId s s1 :
  exec env (RequestVerificationResult verificationId) s = (s1, Success) ->
  s1 = requestVerificationResult_post env s verificationId.
Proof.
  unfold execute. cbn [dispatch]. rewrite requestVerificationResult_unfold.
  destruct (DecryptedResult.isRevealed (result_at s verificationId)); [discriminate|].
  intros [= <-]. reflexivity.
Qed.

(** ** Correlation of callbacks (C1) *)

(** C1, amended: a submission registers its target under the request
    identifier it is handed, and no callback writes to a correlation
    table: the entry is not consumed.  As long as the oracle does not hand
    the same identifier out again, the identifier keeps the target
    registered at submission through every sequence of transactions, and a
    successful callback acts on exactly that target: [performVerification]
    creates the next verification for the registered refugee and changes
    no other verification or result, [decryptVerification] writes the
    result of the registered verification and nothing else.  A further
    [performVerification] delivery is not refused as unknown: with a
    rejected proof it fails [InvalidProof], and with the accepted
    arguments it succeeds again while the counter can grow.  A further
    [decryptVerification] delivery is refused by the [isRevealed] guard
    with [AlreadyRevealed] while the result stays revealed: right after
    the callback, and through every later sequence of transactions when
    the verification exists and the identifier is not handed out again.
    A callback whose identifier has no registered nonzero target fails
    [UnknownRequestId]. *)
Theorem callbacks_resolve_registered_target env0 s0 txs :
  not_handed_out (oracle_requestId env0) txs ->
  (forall refugeeId packageId s1,
      exec env0 (VerifyEligibility refugeeId packageId) s0 = (s1, Success) ->
      refugee_of_request (after txs s1) (oracle_requestId env0) = refugeeId
      /\ forall env cleartexts proof s',
           exec env (PerformVerification (oracle_requestId env0) cleartexts proof)
             (after txs s1) = (s', Success) ->
           verificationCount s' = verificationCount (after txs s1) + 1
           /\ EncryptedVerification.refugeeId (verification_at s' (verificationCount s'))
              = refugeeId
           /\ (forall k, k <> verificationCount s' ->
                 encryptedVerifications s' !! k = encryptedVerifications (after txs s1) !! k
                 /\ decryptedResults s' !! k = decryptedResults (after txs s1) !! k)
           /\ refugee_of_request s' (oracle_requestId env0) = refugeeId
           /\ (forall env' cleartexts' proof',
                 checkSignatures (oracle_requestId env0) cleartexts' proof' = false ->
                 exec env' (PerformVerification (oracle_requestId env0) cleartexts' proof') s'
                 = (s', Reverted InvalidProof))
           /\ (verificationCount s' + 1 <= UINT256_MAX ->
               forall env', exists s'',
                 exec env' (PerformVerification (oracle_requestId env0) cleartexts proof) s'
                 = (s'', Success)
                 /\ verificationCount s'' = verificationCount s' + 1
                 /\ EncryptedVerification.refugeeId
                      (verification_at s'' (verificationCount s''))
                    = refugeeId))
  /\ (forall verificationId s1,
        exec env0 (RequestVerificationResult verificationId) s0 = (s1, Success) ->
        verification_of_request (after txs s1) (oracle_requestId env0) = verificationId
        /\ forall env cleartexts proof s',
             exec env (DecryptVerification (oracle_requestId env0) cleartexts proof)
               (after txs s1) = (s', Success) ->
             DecryptedResult.isRevealed (result_at s' verificationId) = true
             /\ encryptedVerifications s' = encryptedVerifications (after txs s1)
             /\ verificationCount s' = verificationCount (after txs s1)
             /\ (forall k, k <> verificationId ->
                   decryptedResults s' !! k = decryptedResults (after txs s1) !! k)
             /\ verification_of_request s' (oracle_requestId env0) = verificationId
             /\ (forall env' cleartexts' proof',
                   exec env' (DecryptVerification (oracle_requestId env0) cleartexts' proof') s'
                   = (s', Reverted AlreadyRevealed))
             /\ (verificationId <= verificationCount s' ->
                 forall txs', not_handed_out (oracle_requestId env0) txs' ->
                 forall env' cleartexts' proof',
                   exec env' (DecryptVerification (oracle_requestId env0) cleartexts' proof')
                     (after txs' s')
                   = (after txs' s', Reverted AlreadyRevealed)))
  /\ (forall env s requestId cleartexts proof,
        (refugee_of_request s requestId = 0 ->
         exec env (PerformVerification requestId cleartexts proof) s
         = (s, Reverted UnknownRequestId))
        /\ (verification_of_request s requestId = 0 ->
            exec env (DecryptVerification requestId cleartexts proof) s
            = (s, Reverted UnknownRequestId)))
  /\ (forall env s requestId cleartexts proof,
        (requestToRefugeeId
           (fst (exec env (PerformVerification requestId cleartexts proof) s))
         = requestToRefugeeId s
         /\ verificationRequestToId
              (fst (exec env (PerformVerification requestId cleartexts proof) s))
            = verificationRequestToId s)
        /\ (requestToRefugeeId
              (fst (exec env (DecryptVerification requestId cleartexts proof) s))
            = requestToRefugeeId s
            /\ verificationRequestToId
                 (fst (exec env (DecryptVerification requestId cleartexts proof) s))
               = verificationRequestToId s)).
Proof.
  intros Hfree. split; [|split; [|split]];
    [| | |intros env s requestId cleartexts proof; apply callbacks_keep_correlation].
  - intros refugeeId packageId s1 Hsubmit.
    apply verifyEligibility_commits in Hsubmit.
    assert (Htarget : refugee_of_request (after txs s1) (oracle_requestId env0) = refugeeId).
    { destruct (targets_kept (oracle_requestId env0) txs s1 Hfree) as [-> _].
      subst s1. unfold refugee_of_request. cbn. rewrite lookup_insert_eq. reflexivity. }
    split; [exact Htarget|].
    intros env cleartexts proof s' Hdeliver.
    apply performVerification_success in Hdeliver
      as (identity & needs & resources & eligibility & priority
          & Hreg & Hsig & Hdec & Hmax & He & Hp & Hs').
    rewrite Htarget in Hs', Hreg.
    assert (Hkept : refugee_of_request s' (oracle_requestId env0) = refugeeId).
    { subst s'. exact Htarget. }
    split; [subst s'; reflexivity|].
    split; [subst s'; unfold verification_at; cbn; rewrite lookup_insert_eq; reflexivity|].
    split.
    { intros k Hk. subst s'. cbn in Hk |- *.
      rewrite !lookup_insert_ne by congruence. split; reflexivity. }
    split; [exact Hkept|]. split.
    + intros env' cleartexts' proof' Hrejected.
      unfold execute. cbn [dispatch]. rewrite performVerification_unfold, Hkept, Hrejected.
      destruct (Z.eqb_spec refugeeId 0); [contradiction|reflexivity].
    + intros Hroom env'. eexists. split.
      * unfold execute. cbn [dispatch].
        rewrite performVerification_unfold, Hkept, Hsig, Hdec.
        destruct (Z.eqb_spec refugeeId 0); [contradiction|].
        cbn [rbind]. unfold checked_add.
        destruct (Z.leb_spec (verificationCount s' + 1) UINT256_MAX); [|lia].
        cbn [rbind]. rewrite He, Hp. cbn [rbind]. reflexivity.
      * split; [reflexivity|].
        unfold verification_at. cbn. rewrite lookup_insert_eq. reflexivity.
  - intros verificationId s1 Hsubmit.
    apply requestVerificationResult_commits in Hsubmit.
    assert (Htarget :
      verification_of_request (after txs s1) (oracle_requestId env0) = verificationId).
    { destruct (targets_kept (oracle_requestId env0) txs s1 Hfree) as [_ ->].
      subst s1. unfold verification_of_request. cbn. rewrite lookup_insert_eq. reflexivity. }
    split; [exact Htarget|].
    intros env cleartexts proof s' Hdeliver.
    apply decryptVerification_success in Hdeliver
      as (eligibility & priority & Hreg & Hrev & Hsig & Hdec & Hs').
    rewrite Htarget in Hs', Hreg.
    assert (Hkept : verification_of_request s' (oracle_requestId env0) = verificationId).
    { subst s'. exact Htarget. }
    assert (Hrevealed : DecryptedResult.isRevealed (result_at s' verificationId) = true).
    { subst s'. unfold result_at. cbn. rewrite lookup_insert_eq. reflexivity. }
    split; [exact Hrevealed|].
    split; [subst s'; reflexivity|].
    split; [subst s'; reflexivity|].
    split.
    { intros k Hk. subst s'. cbn. rewrite lookup_insert_ne by congruence. reflexivity. }
    split; [exact Hkept|]. split.
    + intros env' cleartexts' proof'. apply revealed_callback_refused.
      * rewrite Hkept. exact Hreg.
      * rewrite Hkept. exact Hrevealed.
    + intros Hexists txs' Hfree' env' cleartexts' proof'.
      destruct (targets_kept (oracle_requestId env0) txs' s' Hfree') as [_ Hlater].
      apply revealed_callback_refused.
      * rewrite Hlater, Hkept. exact Hreg.
      * rewrite Hlater, Hkept.
        rewrite (revealed_result_kept s' verificationId txs' Hexists Hrevealed).
        exact Hrevealed.
  - intros env s requestId cleartexts proof. apply unregistered_callbacks_refused.
Qed.

(** ** Requests registered for refugee 0 *)

(** X12: [verifyEligibility] for refugee 0, handed a request identifier
    that is not in use, goes through and submits its decryption request,
    but what it stores under the identifier is the value that stands for
    no request: as long as the identifier is not handed out again, every
    delivery of the callback for it is refused as unknown. *)
Theorem request_for_refugee_zero_is_unanswerable env packageId s txs :
  requestToRefugeeId s !! oracle_requestId env = None ->
  not_handed_out (oracle_requestId env) txs ->
  exists s1,
    exec env (VerifyEligibility 0 packageId) s = (s1, Success)
    /\ length (submitted s1) = S (length (submitted s))
    /\ requestToRefugeeId s1 !! oracle_requestId env = Some 0
    /\ forall env' cleartexts proof,
         exec env' (PerformVerification (oracle_requestId env) cleartexts proof)
           (after txs s1)
         = (after txs s1, Reverted UnknownRequestId).
Proof.
  intros _ Hfree. exists (verifyEligibility_post env s 0 packageId). split.
  { unfold execute. cbn [dispatch]. rewrite verifyEligibility_unfold. reflexivity. }
  split; [cbn; rewrite length_app; cbn; lia|].
  split; [cbn; apply lookup_insert_eq|].
  intros env' cleartexts proof.
  apply unregistered_callbacks_refused.
  destruct (targets_kept (oracle_requestId env) txs
              (verifyEligibility_post env s 0 packageId) Hfree) as [-> _].
  unfold refugee_of_request. cbn. rewrite lookup_insert_eq. reflexivity.
Qed.

End RequestIdentifiers.

Lemma callbacks_resolve_registered_target_witness :
  let txs := [ (at_time 103 0, RegisterEncryptedRefugee 14 15 16);
               (at_time 104 8, VerifyEligibility 2 1);
               (at_time 105 0, PerformVerification 8 sample_strings []) ] in
  not_handed_out 7 txs
  /\ refugee_of_request (sample_transact txs eligibility_requested) 7 = 1.
Proof.
  intros txs.
  assert (Hfree : not_handed_out 7 txs) by (repeat constructor).
  split; [exact Hfree|].
  destruct (callbacks_resolve_registered_target kms_accepts_all handle_of_value
              (at_time 102 7)
              (sample_transact
                 [ (at_time 100 0, RegisterEncryptedRefugee 11 12 13);
                   (at_time 101 0, CreateAidPackage 21 22) ]
                 deployed)
              txs Hfree)
    as [Hperform _].
  destruct (Hperform 1 1 eligibility_requested) as [Htarget _].
  - vm_compute. reflexivity.
  - exact Htarget.
Defined.

Lemma request_for_refugee_zero_is_unanswerable_witness :
  let s := sample_transact
             [ (at_time 100 0, RegisterEncryptedRefugee 11 12 13);
               (at_time 101 0, CreateAidPackage 21 22) ]
             deployed in
  let txs := [ (at_time 103 10, VerifyEligibility 1 1);
               (at_time 104 0, PerformVerification 10 sample_strings []) ] in
  let s1 := fst (sample_execute (at_time 102 9) (VerifyEligibility 0 1) s) in
  requestToRefugeeId s !! 9 = None
  /\ not_handed_out 9 txs
  /\ sample_execute (at_time 105 0) (PerformVerification 9 sample_strings [])
       (sample_transact txs s1)
     = (sample_transact txs s1, Reverted UnknownRequestId).
Proof.
  intros s txs s1.
  assert (Hunused : requestToRefugeeId s !! 9 = None) by (vm_compute; reflexivity).
  assert (Hfree : not_handed_out 9 txs) by (repeat constructor).
  split; [exact Hunused|]. split; [exact Hfree|].
  destruct (request_for_refugee_zero_is_unanswerable kms_accepts_all handle_of_value
              (at_time 102 9) 1 s txs Hunused Hfree)
    as (s1' & Hexec & _ & _ & Hrefused).
  unfold s1, sample_execute, sample_transact. rewrite Hexec. cbn [fst].
  apply Hrefused.
Defined.
